(** * Financial ratio engine of the finance service

    A shallow embedding of [app/domain/service/ratio_service.py]
    (class [RatioService]) and the properties of its ratio, growth and
    multi-year assembly code.

    Modelling conventions.
    - A Python [float] is an IEEE 754 binary64 number: Rocq's primitive
      [float], with the same rounding.  The integer literal [0] that the code
      uses as a default mixes with floats only through [==], [<], [>], [-]
      and [/], where it behaves as [+0.0]; it is modelled as [0%float].
    - A Python [dict] is a [gmap]; the code never relies on insertion order
      (every scan of [.items()] is shown below to be order independent).
    - A raised exception is a value of [result]; [try]/[except] is [catch].
    - Fiscal years are strings, as in the source.  [str(n)] is [py_str], the
      decimal notation.  [int(year)] is [py_int], a function the development
      does not fix: Python's [int] reads more than the plain decimal literals
      (surrounding blanks, a sign [+], underscores between digits, the digits
      of other scripts), and every property below holds for each function
      that reads [str(n)] back as [n]. *)

From Stdlib Require Import Floats ZArith DecimalString DecimalZ DecimalPos.
From Stdlib Require OrderedTypeEx.
From stdpp Require Import gmap strings list fin_maps sorting.

Set Warnings "-clear-no-such-hyp".

(** ** Python primitives *)

Module Py.

Inductive exn : Type :=
  | ValueError
  | ZeroDivisionError
  | TypeError
  | IndexError.

Inductive result (A : Type) : Type :=
  | Ok (a : A)
  | Raise (e : exn).
Arguments Ok {A} a.
Arguments Raise {A} e.

#[export] Instance result_ret : MRet result := λ A a, Ok a.
#[export] Instance result_bind : MBind result := λ A B f r,
  match r with
  | Ok a => f a
  | Raise e => Raise e
  end.

(** [try: body except (handled...): handler]. *)
Definition catch {A} (body : result A) (handled : exn → bool) (handler : A) : result A :=
  match body with
  | Ok a => Ok a
  | Raise e => if handled e then Ok handler else Raise e
  end.

(** [for x in xs: acc = step(acc, x)], leaving at the first exception. *)
Fixpoint for_each {A S} (step : S → A → result S) (xs : list A) (acc : S) : result S :=
  match xs with
  | [] => Ok acc
  | x :: xs' => acc' ← step acc x; for_each step xs' acc'
  end.

(** [a / b] on floats: [ZeroDivisionError] on a zero divisor, IEEE otherwise. *)
Definition div (a b : float) : result float :=
  if (b =? 0)%float then Raise ZeroDivisionError else Ok (a / b)%float.

(** [x != 0]. *)
Definition nonzero (x : float) : bool := negb (x =? 0)%float.

(** [opt * 100], where [opt] may be [None]: [None * 100] is a [TypeError]. *)
Definition times100 (opt : option float) : result float :=
  match opt with
  | Some v => Ok (v * 100)%float
  | None => Raise TypeError
  end.

(** [str(n)] on an integer: its decimal notation. *)
Definition py_str (n : Z) : string :=
  NilZero.string_of_int (Z.to_int n).

(** [int(s)] on a string: [py_int s] is the integer that [s] is read as, or
    [None] when [int(s)] raises [ValueError].  Which strings Python reads as
    integers is left open; what is used of [int] is that it reads the
    decimal notation of an integer back: [int(str(n)) == n]. *)
Class PyInt : Type := {
  py_int : string → option Z;
  py_int_str : ∀ n : Z, py_int (py_str n) = Some n
}.

Definition int `{PyInt} (s : string) : result Z :=
  match py_int s with
  | Some n => Ok n
  | None => Raise ValueError
  end.

(** The least that [int] reads: the decimal literals [-?[0-9]+]. *)
Definition decimal_int (s : string) : option Z :=
  Z.of_int <$> NilZero.int_of_string s.

(** A string is in decimal notation when it is [str(n)] for the integer [n]
    that it is read as. *)
Definition decimal_notation (s : string) : bool :=
  match decimal_int s with
  | Some n => bool_decide (py_str n = s)
  | None => false
  end.



(** [sorted(xs, reverse=True)] on strings that are pairwise distinct. *)
Definition str_ge (x y : string) : Prop := String.leb y x = true.

#[export] Instance str_ge_dec (x y : string) : Decision (str_ge x y) :=
  decide (String.leb y x = true).

Definition sorted_reverse (xs : list string) : list string :=
  merge_sort str_ge xs.

End Py.

Import Py.

(** ** Data model *)

(** One line item of a filing: [item["bsns_year"]], [item["account_nm"]] and
    the three amounts, each [None] or a number. *)
Record item : Type := Item {
  bsns_year : string;
  account_nm : string;
  thstrm_amount : option float;
  frmtrm_amount : option float;
  bfefrmtrm_amount : option float
}.

(** The per-account dict with keys ["thstrm"], ["frmtrm"], ["bfefrmtrm"];
    a key that is absent is [None]. *)
Record amounts : Type := Amounts {
  thstrm : option float;
  frmtrm : option float;
  bfefrmtrm : option float
}.

(** [values.get(key, 0)]. *)
Definition get0 (field : option float) : float := default 0%float field.

Module RatioService.

(** *** [_safe_divide] and [_calculate_growth_rate] *)

Definition _safe_divide (numerator denominator : float) : option float :=
  match
    catch
      (if (denominator =? 0)%float then Ok None
       else q ← div numerator denominator; Ok (Some q))
      (λ _, true) None
  with
  | Ok r => r
  | Raise _ => None
  end.

Definition _calculate_growth_rate (current previous : float) : result (option float) :=
  catch
    (if (previous =? 0)%float then Ok None
     else if (previous <? 0)%float && (0 <? current)%float then Ok (Some 100%float)
     else if (0 <? previous)%float && (current <? 0)%float then Ok (Some (-100)%float)
     else q ← div (current - previous)%float (abs previous); Ok (Some (q * 100)%float))
    (λ e, match e with ZeroDivisionError | TypeError => true | _ => false end)
    None.

(** The four rules of the growth definition, in priority order. *)
Definition growth_rate_reference (current previous : float) : option float :=
  if (previous =? 0)%float then None
  else if (previous <? 0)%float && (0 <? current)%float then Some 100%float
  else if (0 <? previous)%float && (current <? 0)%float then Some (-100)%float
  else Some (((current - previous) / abs previous) * 100)%float.

(** [_safe_divide(n, d) * 100 if d != 0 else None], the form of every ratio
    of [_calculate_ratios]. *)
Definition ratio_pct (numerator denominator : float) : result (option float) :=
  if nonzero denominator
  then v ← times100 (_safe_divide numerator denominator); Ok (Some v)
  else Ok None.

(** *** [_calculate_ratios] *)

(** [year_data.get(name, {}).get(key, 0)]. *)
Definition get_amount (year_data : gmap string amounts) (name : string)
    (key : amounts → option float) : float :=
  get0 (year_data !! name ≫= key).

Module Ratios.
Record t : Type := Make {
  debt_ratio : option float;
  current_ratio : option float;
  debt_dependency : option float;
  operating_profit_ratio : option float;
  net_profit_ratio : option float;
  roe : option float;
  roa : option float;
  sales_growth : option float;
  operating_profit_growth : option float;
  eps_growth : option float
}.
End Ratios.

Definition _calculate_ratios (year_data : gmap string amounts) : result Ratios.t :=
  let total_assets := get_amount year_data "자산총계" thstrm in
  let total_liabilities := get_amount year_data "부채총계" thstrm in
  let current_assets := get_amount year_data "유동자산" thstrm in
  let current_liabilities := get_amount year_data "유동부채" thstrm in
  let total_equity := get_amount year_data "자본총계" thstrm in
  let revenue := get_amount year_data "매출액" thstrm in
  let operating_profit := get_amount year_data "영업이익" thstrm in
  let net_income := get_amount year_data "당기순이익" thstrm in
  let prev_revenue := get_amount year_data "매출액" frmtrm in
  let prev_operating_profit := get_amount year_data "영업이익" frmtrm in
  let prev_net_income := get_amount year_data "당기순이익" frmtrm in
  debt_ratio ← ratio_pct total_liabilities total_equity;
  current_ratio ← ratio_pct current_assets current_liabilities;
  debt_dependency ← ratio_pct total_liabilities total_assets;
  operating_profit_ratio ← ratio_pct operating_profit revenue;
  net_profit_ratio ← ratio_pct net_income revenue;
  roe ← ratio_pct net_income total_equity;
  roa ← ratio_pct net_income total_assets;
  sales_growth ← _calculate_growth_rate revenue prev_revenue;
  operating_profit_growth ← _calculate_growth_rate operating_profit prev_operating_profit;
  eps_growth ← _calculate_growth_rate net_income prev_net_income;
  Ok (Ratios.Make debt_ratio current_ratio debt_dependency operating_profit_ratio
        net_profit_ratio roe roa sales_growth operating_profit_growth eps_growth).

(** *** The response schema *)

Module FinancialMetrics.
Record t : Type := Make {
  operatingMargin : list (option float);
  netMargin : list (option float);
  roe : list (option float);
  roa : list (option float);
  years : list string
}.
End FinancialMetrics.

Module GrowthData.
Record t : Type := Make {
  revenueGrowth : list (option float);
  netIncomeGrowth : list (option float);
  years : list string
}.
End GrowthData.

Module DebtLiquidityData.
Record t : Type := Make {
  debtRatio : list (option float);
  currentRatio : list (option float);
  years : list string
}.
End DebtLiquidityData.

Record FinancialMetricsResponse : Type := Response {
  companyName : string;
  financialMetrics : FinancialMetrics.t;
  growthData : GrowthData.t;
  debtLiquidityData : DebtLiquidityData.t
}.

Definition _empty_metrics_response (company_name : string) : FinancialMetricsResponse :=
  Response company_name
    (FinancialMetrics.Make [] [] [] [] [])
    (GrowthData.Make [] [] [])
    (DebtLiquidityData.Make [] [] []).

(** *** [get_financial_metrics]: grouping the line items *)

(** [float(x) if x else 0]: [None] and a zero amount are falsy. *)
Definition amount_of (x : option float) : float :=
  match x with
  | Some v => if nonzero v then v else 0%float
  | None => 0%float
  end.

Definition amounts_of (it : item) : amounts :=
  Amounts (Some (amount_of (thstrm_amount it)))
          (Some (amount_of (frmtrm_amount it)))
          (Some (amount_of (bfefrmtrm_amount it))).

(** The state of the first loop: [years_data] and [all_years]. *)
Definition scan_item (st : gmap string (gmap string amounts) * gset string) (it : item)
    : gmap string (gmap string amounts) * gset string :=
  let '(years_data, all_years) := st in
  let all_years := {[bsns_year it]} ∪ all_years in
  let year := bsns_year it in
  let years_data :=
    match years_data !! year with
    | None => <[year := ∅]> years_data
    | Some _ => years_data
    end in
  let accounts := default ∅ (years_data !! year) in
  let years_data :=
    match accounts !! account_nm it with
    | None => <[year := <[account_nm it := amounts_of it]> accounts]> years_data
    | Some _ => years_data
    end in
  (years_data, all_years).

Definition scan_items (financial_data : list item)
    : gmap string (gmap string amounts) * gset string :=
  foldl scan_item (∅, ∅) financial_data.

(** [years = sorted(all_years, reverse=True)[:3]]. *)
Definition anchor_years (all_years : gset string) : list string :=
  take 3 (sorted_reverse (elements all_years)).

(** *** [get_financial_metrics]: current, prior and prior-prior years *)

(** The dict filled by
    [for account_nm, values in ...items(): d[account_nm] = {"thstrm": values.get(key, 0)}]. *)
Definition implied_year (key : amounts → option float) (filed : gmap string amounts)
    : gmap string amounts :=
  map_fold (λ account_nm values d, <[account_nm := Amounts (Some (get0 (key values))) None None]> d)
    ∅ filed.

(** One round of [for year in years]. *)
Definition collect_year `{PyInt} (years_data : gmap string (gmap string amounts))
    (all_year_data : gmap string (gmap string amounts)) (year : string)
    : result (gmap string (gmap string amounts)) :=
  let all_year_data :=
    match years_data !! year with
    | Some d => <[year := d]> all_year_data
    | None => all_year_data
    end in
  n ← int year;
  let prev_year := py_str (n - 1) in
  let all_year_data :=
    match all_year_data !! prev_year with
    | None => <[prev_year := implied_year frmtrm (default ∅ (years_data !! year))]> all_year_data
    | Some _ => all_year_data
    end in
  n ← int year;
  let prev_prev_year := py_str (n - 2) in
  let all_year_data :=
    match all_year_data !! prev_prev_year with
    | None => <[prev_prev_year := implied_year bfefrmtrm (default ∅ (years_data !! year))]> all_year_data
    | Some _ => all_year_data
    end in
  Ok all_year_data.

Definition collect_years `{PyInt} (years_data : gmap string (gmap string amounts))
    (years : list string) : result (gmap string (gmap string amounts)) :=
  for_each (collect_year years_data) years ∅.

(** [target_years = sorted(all_year_data.keys(), reverse=True)[:3]]. *)
Definition target_years_of (all_year_data : gmap string (gmap string amounts)) : list string :=
  take 3 (sorted_reverse (elements (dom all_year_data))).

(** *** [get_financial_metrics]: the ratio series *)

(** The eight locals that the scan of [year_data.items()] fills. *)
Record extracted : Type := Extracted {
  total_assets : float;
  total_liabilities : float;
  current_assets : float;
  current_liabilities : float;
  total_equity : float;
  revenue : float;
  operating_profit : float;
  net_income : float
}.

Definition extracted_init : extracted :=
  Extracted 0%float 0%float 0%float 0%float 0%float 0%float 0%float 0%float.

(** The body of [for account_nm, values in year_data.items()]. *)
Definition extract_account (account_nm : string) (values : amounts) (x : extracted) : extracted :=
  let v := get0 (thstrm values) in
  let '(Extracted ta tl ca cl te rev op ni) := x in
  if decide (account_nm = "자산총계") then Extracted v tl ca cl te rev op ni
  else if decide (account_nm = "부채총계") then Extracted ta v ca cl te rev op ni
  else if decide (account_nm = "유동자산") then Extracted ta tl v cl te rev op ni
  else if decide (account_nm = "유동부채") then Extracted ta tl ca v te rev op ni
  else if decide (account_nm = "자본총계") then Extracted ta tl ca cl v rev op ni
  else if decide (account_nm = "매출액") then Extracted ta tl ca cl te v op ni
  else if decide (account_nm = "영업이익") then Extracted ta tl ca cl te rev v ni
  else if decide (account_nm = "당기순이익") then Extracted ta tl ca cl te rev op v
  else x.

Definition extract (year_data : gmap string amounts) : extracted :=
  map_fold extract_account extracted_init year_data.

(** [a / b * 100]. *)
Definition pct (a b : float) : result float :=
  q ← div a b; Ok (q * 100)%float.

(** The six lists that [for year in target_years] appends to. *)
Record ratio_lists : Type := RatioLists {
  operating_margins : list (option float);
  net_margins : list (option float);
  roe_values : list (option float);
  roa_values : list (option float);
  debt_ratios : list (option float);
  current_ratios : list (option float)
}.

(** The six values one year contributes, in the order
    operating margin, net margin, ROE, debt ratio, ROA, current ratio. *)
Definition inline_ratios (year_data : gmap string amounts)
    : result (option float * option float * option float * option float
              * option float * option float) :=
  let x := extract year_data in
  '(om, nm) ←
    (if nonzero (revenue x)
     then om ← pct (operating_profit x) (revenue x);
          nm ← pct (net_income x) (revenue x);
          Ok (Some om, Some nm)
     else Ok (None, None));
  '(re, dr) ←
    (if nonzero (total_equity x)
     then re ← pct (net_income x) (total_equity x);
          dr ← pct (total_liabilities x) (total_equity x);
          Ok (Some re, Some dr)
     else Ok (None, None));
  ra ←
    (if nonzero (total_assets x)
     then ra ← pct (net_income x) (total_assets x); Ok (Some ra)
     else Ok None);
  cr ←
    (if nonzero (current_liabilities x)
     then cr ← pct (current_assets x) (current_liabilities x); Ok (Some cr)
     else Ok None);
  Ok (om, nm, re, dr, ra, cr).

(** One round of [for year in target_years]. *)
Definition ratio_year (all_year_data : gmap string (gmap string amounts))
    (acc : ratio_lists) (year : string) : result ratio_lists :=
  match all_year_data !! year with
  | Some year_data =>
      '(om, nm, re, dr, ra, cr) ← inline_ratios year_data;
      Ok (RatioLists (operating_margins acc ++ [om]) (net_margins acc ++ [nm])
            (roe_values acc ++ [re]) (roa_values acc ++ [ra])
            (debt_ratios acc ++ [dr]) (current_ratios acc ++ [cr]))
  | None =>
      Ok (RatioLists (operating_margins acc ++ [None]) (net_margins acc ++ [None])
            (roe_values acc ++ [None]) (roa_values acc ++ [None])
            (debt_ratios acc ++ [None]) (current_ratios acc ++ [None]))
  end.

Definition ratio_series (all_year_data : gmap string (gmap string amounts))
    (target_years : list string) : result ratio_lists :=
  for_each (ratio_year all_year_data) target_years (RatioLists [] [] [] [] [] []).

(** *** [get_financial_metrics]: the growth series *)

(** The body of the scans that pick revenue and net income of one year. *)
Definition extract_growth_account (account_nm : string) (values : amounts)
    (x : float * float) : float * float :=
  if decide (account_nm = "매출액") then (get0 (thstrm values), x.2)
  else if decide (account_nm = "당기순이익") then (x.1, get0 (thstrm values))
  else x.

Definition extract_growth (year_data : gmap string amounts) : float * float :=
  map_fold extract_growth_account (0%float, 0%float) year_data.

(** [xs[i]]. *)
Definition index (xs : list string) (i : nat) : result string :=
  match xs !! i with
  | Some x => Ok x
  | None => Raise IndexError
  end.

(** One round of [for i in range(len(target_years) - 1)]. *)
Definition growth_pair (all_year_data : gmap string (gmap string amounts))
    (target_years : list string)
    (acc : list (option float) * list (option float)) (i : nat)
    : result (list (option float) * list (option float)) :=
  let '(revenue_growths, net_income_growths) := acc in
  current_year ← index target_years i;
  prev_year ← index target_years (i + 1);
  match all_year_data !! current_year, all_year_data !! prev_year with
  | Some current_data, Some prev_data =>
      let '(current_revenue, current_income) := extract_growth current_data in
      let '(prev_revenue, prev_income) := extract_growth prev_data in
      rg ← (if nonzero prev_revenue
            then _calculate_growth_rate current_revenue prev_revenue
            else Ok None);
      ng ← (if nonzero prev_income
            then _calculate_growth_rate current_income prev_income
            else Ok None);
      Ok (revenue_growths ++ [rg], net_income_growths ++ [ng])
  | _, _ => Ok (revenue_growths ++ [None], net_income_growths ++ [None])
  end.

Definition growth_series (all_year_data : gmap string (gmap string amounts))
    (target_years : list string) : result (list (option float) * list (option float)) :=
  for_each (growth_pair all_year_data target_years)
    (seq 0 (length target_years - 1)) ([], []).

(** *** [get_financial_metrics] *)

Definition get_financial_metrics `{PyInt} (corp_code company_name : string)
    (financial_data : list item) : result FinancialMetricsResponse :=
  let '(years_data, all_years) := scan_items financial_data in
  if decide (years_data = ∅) then Ok (_empty_metrics_response company_name)
  else
    let years := anchor_years all_years in
    all_year_data ← collect_years years_data years;
    let target_years := target_years_of all_year_data in
    r ← ratio_series all_year_data target_years;
    '(revenue_growths, net_income_growths) ← growth_series all_year_data target_years;
    Ok (Response company_name
          (FinancialMetrics.Make (operating_margins r) (net_margins r)
             (roe_values r) (roa_values r) target_years)
          (GrowthData.Make revenue_growths net_income_growths
             (take (length target_years - 1) target_years))
          (DebtLiquidityData.Make (debt_ratios r) (current_ratios r) target_years)).

(** *** Views used to state the properties *)

(** The ratio rule: null on a zero denominator, the percentage otherwise. *)
Definition percentage_or_null (numerator denominator : float) : option float :=
  if (denominator =? 0)%float then None
  else Some (numerator / denominator * 100)%float.

(** The six ratios that both computation paths produce, in the order of
    [inline_ratios]. *)
Definition six_of (r : Ratios.t)
    : option float * option float * option float * option float
      * option float * option float :=
  (Ratios.operating_profit_ratio r, Ratios.net_profit_ratio r, Ratios.roe r,
   Ratios.debt_ratio r, Ratios.roa r, Ratios.current_ratio r).

(** [years_data] and [all_years] after the first loop. *)
Definition years_data_of (financial_data : list item) : gmap string (gmap string amounts) :=
  (scan_items financial_data).1.

Definition all_years_of (financial_data : list item) : gset string :=
  (scan_items financial_data).2.

(** [all_year_data] after the second loop. *)
Definition all_year_data_of `{PyInt} (financial_data : list item)
    : result (gmap string (gmap string amounts)) :=
  collect_years (years_data_of financial_data) (anchor_years (all_years_of financial_data)).

(** [d[year][account]] in a dict of dicts, [None] when either key is absent. *)
Definition entry (d : gmap string (gmap string amounts)) (year account : string)
    : option amounts :=
  d !! year ≫= (.!! account).

(** The entry that an implied year holds for an account whose filed entry
    is [values]: [{"thstrm": values.get(key, 0)}]. *)
Definition implied_entry (key : amounts → option float) (values : amounts) : amounts :=
  Amounts (Some (get0 (key values))) None None.

(** The column of anchor year [year] that year [k] is implied from: the prior
    column when [k] is the year before, the prior-prior column when it is two
    years before. *)
Definition source_of `{PyInt} (year k : string) : option (amounts → option float) :=
  match py_int year with
  | Some n =>
      if decide (k = py_str (n - 1)) then Some frmtrm
      else if decide (k = py_str (n - 2)) then Some bfefrmtrm
      else None
  | None => None
  end.

(** The first anchor year, in the order of the loop, that implies year [k]. *)
Fixpoint first_source `{PyInt} (years : list string) (k : string)
    : option (string * (amounts → option float)) :=
  match years with
  | [] => None
  | year :: rest =>
      match source_of year k with
      | Some key => Some (year, key)
      | None => first_source rest k
      end
  end.

(** What the six shared ratios are, on either path. *)
Definition six_by_rule (year_data : gmap string amounts)
    : option float * option float * option float * option float
      * option float * option float :=
  let amt name := get_amount year_data name thstrm in
  (percentage_or_null (amt "영업이익") (amt "매출액"),
   percentage_or_null (amt "당기순이익") (amt "매출액"),
   percentage_or_null (amt "당기순이익") (amt "자본총계"),
   percentage_or_null (amt "부채총계") (amt "자본총계"),
   percentage_or_null (amt "당기순이익") (amt "자산총계"),
   percentage_or_null (amt "유동자산") (amt "유동부채")).

(** *** Inputs used in the examples *)

(** One filing, for 2023: revenue 1000, 800, 600 and net income 100, 80, -50. *)
Definition filing_2023 : list item :=
  [ Item "2023" "매출액" (Some 1000%float) (Some 800%float) (Some 600%float);
    Item "2023" "당기순이익" (Some 100%float) (Some 80%float) (Some (-50)%float) ].

(** The same account twice in one year, with different amounts. *)
Definition revenue_twice : list item :=
  [ Item "2023" "매출액" (Some 1000%float) (Some 800%float) (Some 600%float);
    Item "2023" "매출액" (Some 2000%float) (Some 1600%float) (Some 1200%float) ].

(** A 2023 filing with revenue and a 2022 filing without it. *)
Definition revenue_missing_in_2022 : list item :=
  [ Item "2023" "매출액" (Some 1000%float) (Some 800%float) (Some 600%float);
    Item "2022" "당기순이익" (Some 80%float) (Some (-50)%float) (Some 10%float) ].

(** Four filed years; the 2022 filing restates 2020 revenue as 7, the 2020
    filing has it as 5. *)
Definition four_filings : list item :=
  [ Item "2023" "매출액" (Some 10%float) (Some 9%float) (Some 8%float);
    Item "2022" "매출액" (Some 9%float) (Some 8%float) (Some 7%float);
    Item "2021" "매출액" (Some 8%float) (Some 7%float) (Some 6%float);
    Item "2020" "매출액" (Some 5%float) (Some 4%float) (Some 3%float) ].


(** What the assembler returns for [filing_2023]. *)
Definition response_2023 (company_name : string) : FinancialMetricsResponse :=
  Response company_name
    (FinancialMetrics.Make
       [Some 0%float; Some 0%float; Some 0%float]
       [Some 10%float; Some 10%float; Some (-50 / 600 * 100)%float]
       [None; None; None] [None; None; None] ["2023"; "2022"; "2021"])
    (GrowthData.Make
       [Some 25%float; Some ((800 - 600) / 600 * 100)%float]
       [Some 25%float; Some 100%float] ["2023"; "2022"])
    (DebtLiquidityData.Make [None; None; None] [None; None; None]
       ["2023"; "2022"; "2021"]).

(** The map inside a returned aggregation. *)
Definition returned (r : result (gmap string (gmap string amounts)))
    : gmap string (gmap string amounts) :=
  match r with
  | Ok m => m
  | Raise _ => ∅
  end.

(** *** Views of the series *)

(** The six ratios of one target year, all null for a year without a map. *)
Definition six_of_year (all_year_data : gmap string (gmap string amounts)) (year : string)
    : option float * option float * option float * option float
      * option float * option float :=
  match all_year_data !! year with
  | Some year_data => six_by_rule year_data
  | None => (None, None, None, None, None, None)
  end.

(** Revenue growth and net income growth of a year against the year before
    it, by the growth rule; both null when either year has no map. *)
Definition growth_of_years (all_year_data : gmap string (gmap string amounts))
    (current_year prev_year : string) : option float * option float :=
  match all_year_data !! current_year, all_year_data !! prev_year with
  | Some current_data, Some prev_data =>
      (growth_rate_reference (get_amount current_data "매출액" thstrm)
         (get_amount prev_data "매출액" thstrm),
       growth_rate_reference (get_amount current_data "당기순이익" thstrm)
         (get_amount prev_data "당기순이익" thstrm))
  | _, _ => (None, None)
  end.

(** The growth figures for the pair of years at indices [i] and [i + 1] of
    the list of target years. *)
Definition growth_at (all_year_data : gmap string (gmap string amounts))
    (target_years : list string) (i : nat) : option float * option float :=
  match target_years !! i, target_years !! (i + 1) with
  | Some current_year, Some prev_year => growth_of_years all_year_data current_year prev_year
  | _, _ => (None, None)
  end.

(** The account names that the ratio code reads. *)
Definition recognised_accounts : list string :=
  [ "자산총계"; "부채총계"; "유동자산"; "유동부채"; "자본총계"; "매출액"; "영업이익";
    "당기순이익" ].

(** The ten entries of [_calculate_ratios], by the ratio rule and the growth
    rule. *)
Definition ratios_by_rule (year_data : gmap string amounts) : Ratios.t :=
  let amt name := get_amount year_data name thstrm in
  let prev name := get_amount year_data name frmtrm in
  Ratios.Make
    (percentage_or_null (amt "부채총계") (amt "자본총계"))
    (percentage_or_null (amt "유동자산") (amt "유동부채"))
    (percentage_or_null (amt "부채총계") (amt "자산총계"))
    (percentage_or_null (amt "영업이익") (amt "매출액"))
    (percentage_or_null (amt "당기순이익") (amt "매출액"))
    (percentage_or_null (amt "당기순이익") (amt "자본총계"))
    (percentage_or_null (amt "당기순이익") (amt "자산총계"))
    (growth_rate_reference (amt "매출액") (prev "매출액"))
    (growth_rate_reference (amt "영업이익") (prev "영업이익"))
    (growth_rate_reference (amt "당기순이익") (prev "당기순이익")).

(** A year written as a decimal between 1000 and [M]. *)
Definition year_upto (M : Z) (s : string) : Prop :=
  ∃ m, s = py_str m ∧ (1000 ≤ m ≤ M)%Z.

(** *** [calculate_and_save_ratios] and [_save_ratios_to_db] *)

(** What the code asks of the database session, in order.  The rows that the
    [SELECT] returns are an input of the model; the statements themselves
    are not interpreted, and a call on the session that fails is outside the
    model. *)
Inductive db_call : Type :=
  | Execute (corp_code bsns_year metric_name : string) (metric_value : float)
  | Commit
  | Rollback.

(** A row of the [SELECT]: [row[0]] is the account name, [row[1..3]] the three
    amounts ([None] for SQL [NULL]) and [row[4]] the fiscal year; the record
    [item] has these five fields.
    [float(row[i]) if row[i] is not None else 0]. *)
Definition amount_of_column (x : option float) : float :=
  match x with
  | Some v => v
  | None => 0%float
  end.

Definition amounts_of_row (row : item) : amounts :=
  Amounts (Some (amount_of_column (thstrm_amount row)))
          (Some (amount_of_column (frmtrm_amount row)))
          (Some (amount_of_column (bfefrmtrm_amount row))).

(** The state of the scan of the rows: the keys of [financial_data] in
    insertion order, [financial_data] itself, and [current_year]. *)
Record row_scan : Type := RowScan {
  scan_keys : list string;
  scan_data : gmap string (gmap string amounts);
  scan_current_year : option string
}.

Definition scan_row (st : row_scan) (row : item) : row_scan :=
  let year := bsns_year row in
  let current_year :=
    match scan_current_year st with
    | None => Some year
    | Some y => Some y
    end in
  let '(keys, financial_data) :=
    match scan_data st !! year with
    | None => (scan_keys st ++ [year], <[year := ∅]> (scan_data st))
    | Some _ => (scan_keys st, scan_data st)
    end in
  let financial_data :=
    <[year := <[account_nm row := amounts_of_row row]> (default ∅ (financial_data !! year))]>
      financial_data in
  RowScan keys financial_data current_year.

Definition scan_rows (rows : list item) : row_scan :=
  foldl scan_row (RowScan [] ∅ None) rows.

(** [ratios.get(name)] on the dict that [_calculate_ratios] returns. *)
Definition ratios_get (ratios : Ratios.t) (name : string) : option float :=
  if decide (name = "debt_ratio") then Ratios.debt_ratio ratios
  else if decide (name = "current_ratio") then Ratios.current_ratio ratios
  else if decide (name = "debt_dependency") then Ratios.debt_dependency ratios
  else if decide (name = "operating_profit_ratio") then Ratios.operating_profit_ratio ratios
  else if decide (name = "net_profit_ratio") then Ratios.net_profit_ratio ratios
  else if decide (name = "roe") then Ratios.roe ratios
  else if decide (name = "roa") then Ratios.roa ratios
  else if decide (name = "sales_growth") then Ratios.sales_growth ratios
  else if decide (name = "operating_profit_growth") then Ratios.operating_profit_growth ratios
  else if decide (name = "eps_growth") then Ratios.eps_growth ratios
  else None.

(** The metric names of [_save_ratios_to_db], in the order of its list. *)
Definition metric_names : list string :=
  [ "debt_ratio"; "current_ratio"; "operating_profit_ratio"; "net_profit_ratio";
    "roe"; "roa"; "debt_dependency"; "sales_growth"; "operating_profit_growth";
    "eps_growth" ].

(** The statements that [_save_ratios_to_db] executes. *)
Definition _save_ratios_to_db (corp_code bsns_year : string) (ratios : Ratios.t)
    : list db_call :=
  let metrics := (λ name, (name, ratios_get ratios name)) <$> metric_names in
  omap (λ metric,
          match metric.2 with
          | Some value => Some (Execute corp_code bsns_year metric.1 value)
          | None => None
          end) metrics.

(** [for year, year_data in financial_data.items()]: the calls made so far,
    and [all_ratios] or the exception that stopped the loop. *)
Fixpoint save_years (corp_code : string) (financial_data : gmap string (gmap string amounts))
    (keys : list string) (all_ratios : gmap string Ratios.t) (calls : list db_call)
    : list db_call * result (gmap string Ratios.t) :=
  match keys with
  | [] => (calls, Ok all_ratios)
  | year :: rest =>
      match _calculate_ratios (default ∅ (financial_data !! year)) with
      | Ok ratios =>
          save_years corp_code financial_data rest (<[year := ratios]> all_ratios)
            (calls ++ _save_ratios_to_db corp_code year ratios)
      | Raise e => (calls, Raise e)
      end
  end.

(** [calculate_and_save_ratios], given the rows of its query: the calls on the
    session and the returned dict, [None] for the empty dict. *)
Definition calculate_and_save_ratios (corp_code corp_name : string) (rows : list item)
    : list db_call * result (option Ratios.t) :=
  let st := scan_rows rows in
  match save_years corp_code (scan_data st) (scan_keys st) ∅ [] with
  | (calls, Ok all_ratios) =>
      (calls ++ [Commit],
       Ok (match scan_current_year st with
           | Some current_year =>
               if decide (current_year = "") then None else all_ratios !! current_year
           | None => None
           end))
  | (calls, Raise e) => (calls ++ [Rollback], Raise e)
  end.

End RatioService.

Import RatioService.

(** ** The facade [FinService] of [app/domain/service/fin_service.py] *)

Module FinService.

(** A value of a row of [_format_ratios_data]: the year, or a ratio or null. *)
Inductive value : Type :=
  | Year (year : string)
  | Number (x : option float).

(** [xs[i] if i < len(xs) else None]. *)
Definition at_or_none (xs : list (option float)) (i : nat) : option float :=
  if decide (i < length xs) then default None (xs !! i) else None.

(** The dict built for the [i]-th year. *)
Definition format_row (metrics : FinancialMetricsResponse) (i : nat) (year : string)
    : gmap string value :=
  let fm := financialMetrics metrics in
  let gd := growthData metrics in
  let dl := debtLiquidityData metrics in
  let ratio : gmap string value :=
    <["ROA" := Number (at_or_none (FinancialMetrics.roa fm) i)]>
    (<["ROE" := Number (at_or_none (FinancialMetrics.roe fm) i)]>
    (<["순이익률" := Number (at_or_none (FinancialMetrics.netMargin fm) i)]>
    (<["영업이익률" := Number (at_or_none (FinancialMetrics.operatingMargin fm) i)]>
    (<["유동비율" := Number (at_or_none (DebtLiquidityData.currentRatio dl) i)]>
    (<["부채비율" := Number (at_or_none (DebtLiquidityData.debtRatio dl) i)]>
    (<["사업연도" := Year year]> ∅)))))) in
  if decide (i < length (GrowthData.years gd))
  then <["순이익증가율" := Number (at_or_none (GrowthData.netIncomeGrowth gd) i)]>
       (<["매출액증가율" := Number (at_or_none (GrowthData.revenueGrowth gd) i)]> ratio)
  else ratio.

(** [metrics] may be [None]; a response object is truthy, a list is truthy
    when it is not empty. *)
Definition _format_ratios_data (metrics : option FinancialMetricsResponse)
    : list (gmap string value) :=
  match metrics with
  | Some m =>
      match FinancialMetrics.years (financialMetrics m) with
      | [] => []
      | years => imap (format_row m) years
      end
  | None => []
  end.

Definition _empty_metrics_response (company_name : string) : FinancialMetricsResponse :=
  Response company_name
    (FinancialMetrics.Make [] [] [] [] [])
    (GrowthData.Make [] [] [])
    (DebtLiquidityData.Make [] [] []).

(** What [fetch_and_save_financial_data] hands back: [raw_data["status"]] and
    [raw_data.get("data")]. *)
Record raw_data : Type := RawData {
  status : string;
  data : option (list item)
}.

(** [not raw_data.get("data")]: the key is absent or the list is empty. *)
Definition no_data (raw : raw_data) : bool :=
  match data raw with
  | Some (_ :: _) => false
  | _ => true
  end.

(** [get_financial_metrics], given the company code that the company lookup
    returned and the result of the fetch. *)
Definition get_financial_metrics `{PyInt} (corp_code company_name : string) (raw : raw_data)
    : result FinancialMetricsResponse :=
  if negb (bool_decide (status raw = "success")) || no_data raw
  then Ok (_empty_metrics_response company_name)
  else RatioService.get_financial_metrics corp_code company_name (default [] (data raw)).

(** The dict that [get_financial_ratios] returns. *)
Record ratios_reply : Type := RatiosReply {
  reply_status : string;
  reply_message : string;
  reply_data : list (gmap string value)
}.

(** [get_financial_ratios], given the result [fetched] of its own fetch and the
    result [raw] of the fetch that [get_financial_metrics] makes. *)
Definition get_financial_ratios `{PyInt} (corp_code company_name : string)
    (fetched raw : raw_data) : result ratios_reply :=
  if bool_decide (status fetched = "error") || no_data fetched
  then Ok (RatiosReply "success" "재무비율이 성공적으로 조회되었습니다." [])
  else
    metrics ← get_financial_metrics corp_code company_name raw;
    let ratios_data := _format_ratios_data (Some metrics) in
    Ok (RatiosReply "success" "재무비율이 성공적으로 조회되었습니다." ratios_data).

End FinService.

(** ** Properties *)

(** The decimal literals are one way to read integers. *)
Lemma decimal_int_str (n : Z) : decimal_int (py_str n) = Some n.
Proof.
  unfold decimal_int, py_str. rewrite NilZero.isi.
  - simpl. by rewrite DecimalZ.of_to.
  - destruct n; simpl; try done.
    intros [= H]. by apply DecimalPos.Unsigned.to_uint_nonnil in H.
  - destruct n; simpl; try done.
    intros [= H]. by apply DecimalPos.Unsigned.to_uint_nonnil in H.
Qed.

Definition decimal_literals : PyInt :=
  {| py_int := decimal_int; py_int_str := decimal_int_str |}.




Lemma py_str_inj (a b : Z) : py_str a = py_str b → a = b.
Proof.
  intros H. apply (f_equal decimal_int) in H. rewrite !decimal_int_str in H. congruence.
Qed.

(** From here on [int] is any function with [int(str(n)) == n]. *)
Section Properties.

Context {python_int : PyInt}.

Lemma abs_nonzero (x : float) : (x =? 0)%float = false → (abs x =? 0)%float = false.
Proof.
  rewrite !FloatAxioms.eqb_spec, abs_spec.
  change (Prim2SF 0) with (S754_zero false).
  destruct (Prim2SF x) as [s|s| |s m e]; simpl; try done; by destruct s.
Qed.

Lemma div_ok (a b : float) : (b =? 0)%float = false → div a b = Ok (a / b)%float.
Proof. intros H. unfold div. by rewrite H. Qed.

Lemma growth_rate_returns (current previous : float) :
  ∃ g, _calculate_growth_rate current previous = Ok g.
Proof.
  unfold _calculate_growth_rate.
  destruct (previous =? 0)%float eqn:Hz; [by eexists|].
  destruct ((previous <? 0)%float && (0 <? current)%float); [by eexists|].
  destruct ((0 <? previous)%float && (current <? 0)%float); [by eexists|].
  rewrite (div_ok _ _ (abs_nonzero _ Hz)). by eexists.
Qed.

(** C1: the growth-rate calculator returns, on every pair, what the four
    rules of the growth definition give when tried in order. *)
Theorem growth_rate_is_reference (current previous : float) :
  _calculate_growth_rate current previous = Ok (growth_rate_reference current previous).
Proof.
  unfold _calculate_growth_rate, growth_rate_reference.
  destruct (previous =? 0)%float eqn:Hz; [done|].
  destruct ((previous <? 0)%float && (0 <? current)%float); [done|].
  destruct ((0 <? previous)%float && (current <? 0)%float); [done|].
  by rewrite (div_ok _ _ (abs_nonzero _ Hz)).
Qed.

(** *** Ratios *)

Lemma safe_divide_eq (n d : float) :
  _safe_divide n d = if (d =? 0)%float then None else Some (n / d)%float.
Proof.
  unfold _safe_divide. destruct (d =? 0)%float eqn:Hd; [done|].
  by rewrite (div_ok _ _ Hd).
Qed.

Lemma ratio_pct_eq (n d : float) : ratio_pct n d = Ok (percentage_or_null n d).
Proof.
  unfold ratio_pct, percentage_or_null, nonzero. rewrite safe_divide_eq.
  by destruct (d =? 0)%float.
Qed.

Lemma pct_ok (a b : float) : nonzero b = true → pct a b = Ok (a / b * 100)%float.
Proof.
  unfold nonzero, pct. intros Hb%negb_true_iff. by rewrite (div_ok _ _ Hb).
Qed.

(** C7: every ratio of the calculator is null when its denominator is zero
    and the percentage [numerator / denominator * 100] otherwise; the
    calculator returns, it does not raise. *)
Theorem calculate_ratios_null_or_percentage (year_data : gmap string amounts) :
  let amt name := get_amount year_data name thstrm in
  ∃ r, _calculate_ratios year_data = Ok r
    ∧ Ratios.debt_ratio r = percentage_or_null (amt "부채총계") (amt "자본총계")
    ∧ Ratios.current_ratio r = percentage_or_null (amt "유동자산") (amt "유동부채")
    ∧ Ratios.debt_dependency r = percentage_or_null (amt "부채총계") (amt "자산총계")
    ∧ Ratios.operating_profit_ratio r = percentage_or_null (amt "영업이익") (amt "매출액")
    ∧ Ratios.net_profit_ratio r = percentage_or_null (amt "당기순이익") (amt "매출액")
    ∧ Ratios.roe r = percentage_or_null (amt "당기순이익") (amt "자본총계")
    ∧ Ratios.roa r = percentage_or_null (amt "당기순이익") (amt "자산총계").
Proof.
  intros amt. unfold _calculate_ratios.
  rewrite !ratio_pct_eq. cbn [mbind result_bind].
  repeat match goal with
  | |- context [_calculate_growth_rate ?c ?p] =>
      destruct (growth_rate_returns c p) as [? ->]; cbn [mbind result_bind]
  end.
  eexists. split; [reflexivity|]. by repeat split.
Qed.

(** *** The two ratio paths *)

(** The scan of [year_data.items()] with its [if]/[elif] chain reads, for each
    of the eight account names, the entry stored under that name. *)
Lemma extract_lookup (year_data : gmap string amounts) :
  let amt name := get_amount year_data name thstrm in
  extract year_data =
    Extracted (amt "자산총계") (amt "부채총계") (amt "유동자산") (amt "유동부채")
      (amt "자본총계") (amt "매출액") (amt "영업이익") (amt "당기순이익").
Proof.
  unfold extract.
  apply (map_fold_weak_ind (λ r m,
    r = Extracted (get_amount m "자산총계" thstrm) (get_amount m "부채총계" thstrm)
          (get_amount m "유동자산" thstrm) (get_amount m "유동부채" thstrm)
          (get_amount m "자본총계" thstrm) (get_amount m "매출액" thstrm)
          (get_amount m "영업이익" thstrm) (get_amount m "당기순이익" thstrm))).
  - unfold get_amount. by rewrite !lookup_empty.
  - intros i x m r Hi ->. unfold extract_account, get_amount.
    repeat case_decide; simplify_map_eq; reflexivity.
Qed.

(** The same for the scans of the growth loop. *)
Lemma extract_growth_lookup (year_data : gmap string amounts) :
  extract_growth year_data =
    (get_amount year_data "매출액" thstrm, get_amount year_data "당기순이익" thstrm).
Proof.
  unfold extract_growth.
  apply (map_fold_weak_ind (λ r m,
    r = (get_amount m "매출액" thstrm, get_amount m "당기순이익" thstrm))).
  - unfold get_amount. by rewrite !lookup_empty.
  - intros i x m r Hi ->. unfold extract_growth_account, get_amount. cbn [fst snd].
    repeat case_decide; simplify_map_eq; reflexivity.
Qed.

Lemma calculate_ratios_six (year_data : gmap string amounts) :
  ∃ r, _calculate_ratios year_data = Ok r ∧ six_of r = six_by_rule year_data.
Proof.
  unfold _calculate_ratios.
  rewrite !ratio_pct_eq. cbn [mbind result_bind].
  repeat match goal with
  | |- context [_calculate_growth_rate ?c ?p] =>
      destruct (growth_rate_returns c p) as [? ->]; cbn [mbind result_bind]
  end.
  eexists. split; reflexivity.
Qed.

Lemma guarded_pct (a b : float) :
  (if nonzero b then v ← pct a b; Ok (Some v) else Ok None)
  = Ok (percentage_or_null a b).
Proof.
  unfold percentage_or_null. destruct (nonzero b) eqn:Hb.
  - rewrite (pct_ok _ _ Hb). apply negb_true_iff in Hb. by rewrite Hb.
  - apply negb_false_iff in Hb. by rewrite Hb.
Qed.

Lemma guarded_pct2 (a a' b : float) :
  (if nonzero b then v ← pct a b; w ← pct a' b; Ok (Some v, Some w)
   else Ok (None, None))
  = Ok (percentage_or_null a b, percentage_or_null a' b).
Proof.
  unfold percentage_or_null. destruct (nonzero b) eqn:Hb.
  - rewrite !(pct_ok _ _ Hb). apply negb_true_iff in Hb. by rewrite Hb.
  - apply negb_false_iff in Hb. by rewrite Hb.
Qed.

Lemma inline_ratios_six (year_data : gmap string amounts) :
  inline_ratios year_data = Ok (six_by_rule year_data).
Proof.
  unfold inline_ratios. rewrite extract_lookup. cbn [revenue operating_profit
    net_income total_equity total_liabilities total_assets current_assets
    current_liabilities].
  rewrite !guarded_pct2. cbn [mbind result_bind].
  rewrite !guarded_pct. reflexivity.
Qed.

(** C4, as the code has it: on every year account map the reusable
    calculator and the inlined path both return, and they give the same
    operating margin, net margin, ROE, debt ratio, ROA and current ratio. *)
Theorem ratio_paths_agree (year_data : gmap string amounts) :
  ∃ r, _calculate_ratios year_data = Ok r
       ∧ inline_ratios year_data = Ok (six_of r).
Proof.
  destruct (calculate_ratios_six year_data) as (r & Hr & Hsix).
  exists r. split; [done|]. rewrite Hsix. apply inline_ratios_six.
Qed.

(** C4, as stated, fails: no year account map makes the two paths differ on
    any of the six ratios. *)
Lemma no_ratio_path_divergence :
  ¬ ∃ (year_data : gmap string amounts) r s,
      _calculate_ratios year_data = Ok r
      ∧ inline_ratios year_data = Ok s
      ∧ s ≠ six_of r.
Proof.
  intros (year_data & r & s & Hr & Hs & Hne).
  destruct (calculate_ratios_six year_data) as (r' & Hr' & Hsix).
  rewrite inline_ratios_six in Hs. congruence.
Qed.

(** *** Integers and strings *)

Lemma int_ok (s : string) (n : Z) : py_int s = Some n → int s = Ok n.
Proof. unfold int. by intros ->. Qed.

Lemma int_inv (s : string) (n : Z) : int s = Ok n → py_int s = Some n.
Proof. unfold int. destruct (py_int s); congruence. Qed.


(** *** Grouping the line items *)

Lemma scan_item_entry st (it : item) (y a : string) :
  entry (scan_item st it).1 y a =
    match entry st.1 y a with
    | Some v => Some v
    | None => if decide (bsns_year it = y ∧ account_nm it = a)
              then Some (amounts_of it) else None
    end.
Proof.
  destruct st as [yd ys]. unfold scan_item, entry. cbn [fst].
  destruct (yd !! bsns_year it) as [d|] eqn:Hd.
  - rewrite Hd. simpl.
    destruct (d !! account_nm it) as [v|] eqn:Ha.
    + destruct (yd !! y) as [d'|] eqn:Hy; simpl.
      * destruct (d' !! a) eqn:Ha'; [done|].
        case_decide as H; [|done]. destruct H as [<- <-]. congruence.
      * case_decide as H; [|done]. destruct H as [<- _]. congruence.
    + destruct (decide (bsns_year it = y)) as [<-|Hne].
      * rewrite lookup_insert_eq, Hd. simpl.
        destruct (decide (account_nm it = a)) as [<-|Hne].
        -- rewrite lookup_insert_eq, Ha. by rewrite decide_True.
        -- rewrite lookup_insert_ne by done. destruct (d !! a); [done|].
           destruct (decide _); [naive_solver|done].
      * rewrite lookup_insert_ne by done.
        destruct (yd !! y ≫= lookup a); [done|].
        destruct (decide _); [naive_solver|done].
  - rewrite lookup_insert_eq. simpl. rewrite lookup_empty.
    destruct (decide (bsns_year it = y)) as [<-|Hne].
    + rewrite lookup_insert_eq, Hd. simpl.
      destruct (decide (account_nm it = a)) as [<-|Hne].
      * rewrite lookup_insert_eq. by rewrite decide_True.
      * rewrite lookup_insert_ne by done. rewrite lookup_empty.
        destruct (decide _); [naive_solver|done].
    + rewrite !lookup_insert_ne by done.
      destruct (yd !! y ≫= lookup a); [done|].
      destruct (decide _); [naive_solver|done].
Qed.

Lemma scan_entry (financial_data : list item) st (y a : string) :
  entry (foldl scan_item st financial_data).1 y a =
    match entry st.1 y a with
    | Some v => Some v
    | None => amounts_of <$>
        head (filter (λ it, bsns_year it = y ∧ account_nm it = a) financial_data)
    end.
Proof.
  revert st. induction financial_data as [|it rest IH]; intros st; cbn [foldl].
  - by destruct (entry st.1 y a).
  - rewrite IH, scan_item_entry, filter_cons.
    destruct (entry st.1 y a); [done|]. by case_decide.
Qed.

Lemma scan_item_years st (it : item) :
  dom st.1 = st.2 → dom (scan_item st it).1 = (scan_item st it).2
    ∧ (scan_item st it).2 = {[bsns_year it]} ∪ st.2.
Proof.
  destruct st as [yd ys]. cbn [fst snd]. intros <-. unfold scan_item. cbn [fst snd].
  split; [|done].
  destruct (yd !! bsns_year it) as [d|] eqn:Hd.
  - rewrite Hd. simpl. apply elem_of_dom_2 in Hd.
    destruct (d !! account_nm it).
    + set_solver.
    + rewrite dom_insert_L. set_solver.
  - rewrite lookup_insert_eq. simpl. rewrite lookup_empty.
    rewrite !dom_insert_L. set_solver.
Qed.

Lemma scan_years (financial_data : list item) st :
  dom st.1 = st.2 →
  dom (foldl scan_item st financial_data).1 = (foldl scan_item st financial_data).2
  ∧ ∀ y, y ∈ (foldl scan_item st financial_data).2
         ↔ y ∈ st.2 ∨ ∃ it, it ∈ financial_data ∧ bsns_year it = y.
Proof.
  revert st. induction financial_data as [|it rest IH]; intros st Hst; cbn [foldl].
  - split; [done|]. intros y. split; [by left|]. intros [?|(it & Hit & _)]; [done|].
    by apply elem_of_nil in Hit.
  - destruct (scan_item_years st it Hst) as [Hdom Hys].
    destruct (IH _ Hdom) as [IH1 IH2]. split; [done|].
    intros y. rewrite IH2, Hys. split.
    + intros [[->%elem_of_singleton|?]%elem_of_union|(it' & Hit & <-)].
      * right. exists it. split; [left|done].
      * by left.
      * right. exists it'. split; [by right|done].
    + intros [?|(it' & [->|Hit]%elem_of_cons & <-)].
      * left. set_solver.
      * left. set_solver.
      * right. by exists it'.
Qed.

Lemma years_data_dom (financial_data : list item) :
  dom (years_data_of financial_data) = all_years_of financial_data.
Proof. by apply (scan_years financial_data (∅, ∅)); cbn; rewrite dom_empty_L. Qed.

Lemma all_years_spec (financial_data : list item) (y : string) :
  y ∈ all_years_of financial_data ↔ ∃ it, it ∈ financial_data ∧ bsns_year it = y.
Proof.
  unfold all_years_of, scan_items.
  destruct (scan_years financial_data (∅, ∅)) as [_ H]; [by cbn; rewrite dom_empty_L|].
  rewrite H. cbn. set_solver.
Qed.

(** C2, as the code has it: the entry kept for a year and an account name is
    the one of the first line item with that year and name; later items with
    the same year and name are ignored. *)
Theorem first_item_wins (financial_data : list item) (y a : string) :
  entry (years_data_of financial_data) y a =
    amounts_of <$>
      head (filter (λ it, bsns_year it = y ∧ account_nm it = a) financial_data).
Proof.
  unfold years_data_of, scan_items. rewrite scan_entry. cbn [fst].
  unfold entry. by rewrite lookup_empty.
Qed.

(** *** Current, prior and prior-prior years *)

(** The scan that fills an implied year maps every account of the filed year,
    whatever the order of the scan. *)
Lemma implied_year_fmap (key : amounts → option float) (filed : gmap string amounts) :
  implied_year key filed = implied_entry key <$> filed.
Proof.
  unfold implied_year.
  apply (map_fold_weak_ind (λ r m, r = implied_entry key <$> m)).
  - by rewrite fmap_empty.
  - intros i x m r _ ->. by rewrite fmap_insert.
Qed.

(** [if i not in m: m[i] = x], read at key [k]. *)
Lemma lookup_insert_absent {V} (m : gmap string V) (i k : string) (x : V) :
  (match m !! i with None => <[i:=x]> m | Some _ => m end) !! k =
    match m !! k with
    | Some y => Some y
    | None => if decide (k = i) then Some x else None
    end.
Proof.
  destruct (m !! i) eqn:Hi.
  - destruct (m !! k) eqn:Hk; [done|]. destruct (decide (k = i)); [congruence|done].
  - destruct (decide (k = i)) as [->|Hne].
    + by rewrite lookup_insert_eq, Hi.
    + rewrite lookup_insert_ne by done. by destruct (m !! k).
Qed.

Lemma collect_year_lookup yd ayd ayd' (year : string) (d : gmap string amounts) :
  yd !! year = Some d →
  collect_year yd ayd year = Ok ayd' →
  ∀ k, ayd' !! k =
    if decide (k = year) then Some d
    else match ayd !! k with
         | Some x => Some x
         | None => (λ key, implied_year key d) <$> source_of year k
         end.
Proof.
  intros Hd. unfold collect_year, source_of. rewrite Hd. unfold int.
  destruct (py_int year) as [n|]; [|done]. cbn [mbind result_bind default].
  intros [= <-] k. rewrite !lookup_insert_absent.
  destruct (decide (k = year)) as [->|Hk].
  - by rewrite lookup_insert_eq.
  - rewrite lookup_insert_ne by done. destruct (ayd !! k); [done|].
    destruct (decide (k = py_str (n - 1))); [done|].
    by destruct (decide (k = py_str (n - 2))).
Qed.

Lemma collect_year_returns yd ayd (year : string) :
  is_Some (py_int year) → ∃ ayd', collect_year yd ayd year = Ok ayd'.
Proof.
  intros [n Hn]. unfold collect_year. rewrite (int_ok _ _ Hn).
  cbn [mbind result_bind]. by eexists.
Qed.

Lemma collect_years_returns yd (years : list string) ayd :
  Forall (λ y, is_Some (py_int y)) years →
  ∃ ayd', for_each (collect_year yd) years ayd = Ok ayd'.
Proof.
  intros H. revert ayd. induction H as [|y rest Hy _ IH]; intros ayd; cbn [for_each].
  - by eexists.
  - destruct (collect_year_returns yd ayd y Hy) as [ayd1 ->].
    cbn [mbind result_bind]. apply IH.
Qed.

(** The aggregated map after the loop over [years], started from [ayd]. *)
Lemma collect_years_lookup yd (years : list string) ayd ayd' :
  Forall (λ y, is_Some (yd !! y)) years →
  for_each (collect_year yd) years ayd = Ok ayd' →
  ∀ k, ayd' !! k =
    if decide (k ∈ years) then yd !! k
    else match ayd !! k with
         | Some x => Some x
         | None =>
             '(year, key) ← first_source years k;
             Some (implied_year key (default ∅ (yd !! year)))
         end.
Proof.
  intros Hyd. revert ayd. induction Hyd as [|y rest [d Hd] _ IH]; intros ayd; cbn [for_each].
  - intros [= <-] k. rewrite decide_False by apply not_elem_of_nil.
    by destruct (ayd !! k).
  - destruct (collect_year yd ayd y) as [ayd1|] eqn:H1; [|done].
    cbn [mbind result_bind]. intros Hrest k.
    rewrite (IH _ Hrest k), (collect_year_lookup _ _ _ _ _ Hd H1 k).
    destruct (decide (k ∈ rest)) as [Hin|Hnin].
    + rewrite decide_True by by right. done.
    + destruct (decide (k = y)) as [->|Hne].
      * rewrite decide_True by by left. done.
      * rewrite decide_False by (by intros [?|?]%elem_of_cons).
        destruct (ayd !! k); [done|]. cbn [first_source].
        destruct (source_of y k); cbn; [by rewrite Hd|done].
Qed.

Lemma anchor_years_filed (financial_data : list item) (y : string) :
  y ∈ anchor_years (all_years_of financial_data) →
  is_Some (years_data_of financial_data !! y).
Proof.
  unfold anchor_years, sorted_reverse. intros Hy%subseteq_take.
  rewrite merge_sort_Permutation in Hy. apply elem_of_elements in Hy.
  rewrite <- years_data_dom in Hy. by apply elem_of_dom.
Qed.

Lemma anchor_years_all_filed (financial_data : list item) :
  Forall (λ y, is_Some (years_data_of financial_data !! y))
    (anchor_years (all_years_of financial_data)).
Proof. apply Forall_forall. intros y. apply anchor_years_filed. Qed.

Lemma all_year_data_lookup (financial_data : list item) ayd :
  all_year_data_of financial_data = Ok ayd →
  ∀ k, ayd !! k =
    if decide (k ∈ anchor_years (all_years_of financial_data))
    then years_data_of financial_data !! k
    else '(year, key) ← first_source (anchor_years (all_years_of financial_data)) k;
         Some (implied_year key (default ∅ (years_data_of financial_data !! year))).
Proof.
  intros H k.
  rewrite (collect_years_lookup _ _ _ _ (anchor_years_all_filed financial_data) H k).
  by rewrite lookup_empty.
Qed.

(** C3, as the code has it: a year is implied as a whole or not at all.  In
    the aggregated map a year that is one of the anchor years holds exactly
    its filed entries; any other year holds, for every account of the first
    anchor year that has it as its previous year (prior column) or as the
    year before that (prior-prior column), that column as current value. *)
Theorem aggregated_entry (financial_data : list item) ayd (k a : string) :
  all_year_data_of financial_data = Ok ayd →
  entry ayd k a =
    if decide (k ∈ anchor_years (all_years_of financial_data))
    then entry (years_data_of financial_data) k a
    else '(year, key) ← first_source (anchor_years (all_years_of financial_data)) k;
         implied_entry key <$> entry (years_data_of financial_data) year a.
Proof.
  intros H. unfold entry. rewrite (all_year_data_lookup _ _ H k).
  destruct (decide _); [done|].
  destruct (first_source _ k) as [[year key]|]; [|done]. cbn.
  rewrite implied_year_fmap, lookup_fmap.
  destruct (years_data_of financial_data !! year); cbn; [done|].
  by rewrite lookup_empty.
Qed.

(** C8, as the code has it: for an anchor year, one of the three most recent
    filed years, every account with a filed entry carries that entry in the
    aggregated map. *)
Theorem filed_anchor_takes_precedence (financial_data : list item) ayd
    (k a : string) (v : amounts) :
  all_year_data_of financial_data = Ok ayd →
  k ∈ anchor_years (all_years_of financial_data) →
  entry (years_data_of financial_data) k a = Some v →
  entry ayd k a = Some v.
Proof.
  intros H Hk Hv. unfold entry in *. rewrite (all_year_data_lookup _ _ H k).
  by rewrite decide_True.
Qed.

(** *** Target years *)

Lemma target_years_length ayd :
  length (target_years_of ayd) = 3 `min` size (dom ayd).
Proof.
  unfold target_years_of, sorted_reverse.
  by rewrite length_take, merge_sort_Permutation.
Qed.

Lemma target_years_keys ayd (y : string) :
  y ∈ target_years_of ayd → is_Some (ayd !! y).
Proof.
  unfold target_years_of, sorted_reverse. intros Hy%subseteq_take.
  rewrite merge_sort_Permutation in Hy. apply elem_of_elements in Hy.
  by apply elem_of_dom.
Qed.

Lemma anchor_years_nonempty (financial_data : list item) :
  financial_data ≠ [] → ∃ y rest, anchor_years (all_years_of financial_data) = y :: rest.
Proof.
  intros Hne. destruct financial_data as [|it items]; [done|].
  assert (bsns_year it ∈ all_years_of (it :: items)) as Hin.
  { apply all_years_spec. exists it. split; [left|done]. }
  apply elem_of_elements in Hin.
  rewrite <- (merge_sort_Permutation str_ge) in Hin.
  unfold anchor_years, sorted_reverse.
  destruct (merge_sort str_ge (elements (all_years_of (it :: items)))) as [|y l].
  - by apply elem_of_nil in Hin.
  - by exists y, (take 2 l).
Qed.

Lemma three_years_of_anchor yd (years : list string) ayd (year : string) (n : Z) :
  Forall (λ y, is_Some (yd !! y)) years →
  for_each (collect_year yd) years ∅ = Ok ayd →
  year ∈ years → py_int year = Some n →
  {[year; py_str (n - 1); py_str (n - 2)]} ⊆ dom ayd.
Proof.
  intros Hyd H Hin Hn.
  assert (∀ k, source_of year k ≠ None → is_Some (ayd !! k)) as Himplied.
  { intros k Hk. rewrite (collect_years_lookup _ _ _ _ Hyd H k).
    destruct (decide (k ∈ years)) as [Hk'|_].
    - by apply (proj1 (Forall_forall _ _) Hyd).
    - rewrite lookup_empty.
      assert (is_Some (first_source years k)) as [[y key] ->]; [|by eexists].
      clear -Hin Hk. induction years as [|y0 rest IH]; [by apply elem_of_nil in Hin|].
      cbn. destruct (source_of y0 k) eqn:H0; [by eexists|].
      apply elem_of_cons in Hin as [->|Hin]; [done|by apply IH]. }
  intros k [[->%elem_of_singleton| ->%elem_of_singleton]%elem_of_union
           | ->%elem_of_singleton]%elem_of_union; apply elem_of_dom.
  - rewrite (collect_years_lookup _ _ _ _ Hyd H year). rewrite decide_True by done.
    by apply (proj1 (Forall_forall _ _) Hyd).
  - apply Himplied. unfold source_of. rewrite Hn. by rewrite decide_True.
  - apply Himplied. unfold source_of. rewrite Hn.
    destruct (decide _); [done|]. by rewrite decide_True.
Qed.

Lemma three_years_distinct (year : string) (n : Z) :
  py_int year = Some n →
  size ({[year; py_str (n - 1); py_str (n - 2)]} : gset string) = 3.
Proof.
  intros Hn.
  assert (year ≠ py_str (n - 1)) as H1.
  { intros ->. rewrite py_int_str in Hn. injection Hn. lia. }
  assert (year ≠ py_str (n - 2)) as H2.
  { intros ->. rewrite py_int_str in Hn. injection Hn. lia. }
  assert (py_str (n - 1) ≠ py_str (n - 2)) as H3.
  { intros H%py_str_inj. lia. }
  rewrite !size_union, !size_singleton; [done|set_solver..].
Qed.

Lemma collect_year_int yd ayd ayd' (year : string) :
  collect_year yd ayd year = Ok ayd' → is_Some (py_int year).
Proof.
  unfold collect_year, int. destruct (py_int year); [by eexists|done].
Qed.

Lemma collect_years_int yd (years : list string) ayd ayd' :
  for_each (collect_year yd) years ayd = Ok ayd' →
  Forall (λ y, is_Some (py_int y)) years.
Proof.
  revert ayd. induction years as [|y rest IH]; intros ayd; cbn [for_each]; [done|].
  destruct (collect_year yd ayd y) as [ayd1|] eqn:H1; [|done].
  cbn [mbind result_bind]. intros Hrest. constructor.
  - by eapply collect_year_int.
  - by eapply IH.
Qed.

Lemma all_year_data_three (financial_data : list item) ayd :
  financial_data ≠ [] →
  all_year_data_of financial_data = Ok ayd →
  length (target_years_of ayd) = 3.
Proof.
  intros Hne Hayd.
  pose proof (collect_years_int _ _ _ _ Hayd) as Hint.
  destruct (anchor_years_nonempty _ Hne) as (y & rest & Hy).
  assert (y ∈ anchor_years (all_years_of financial_data)) as Hin by (rewrite Hy; left).
  destruct (proj1 (Forall_forall _ _) Hint y Hin) as [n Hn].
  pose proof (three_years_of_anchor _ _ _ y n
    (anchor_years_all_filed financial_data) Hayd Hin Hn) as Hsub.
  apply subseteq_size in Hsub. rewrite (three_years_distinct _ _ Hn) in Hsub.
  rewrite target_years_length. lia.
Qed.

Lemma collect_year_raises yd ayd (year : string) (e : exn) :
  collect_year yd ayd year = Raise e → e = ValueError.
Proof.
  unfold collect_year, int. destruct (py_int year); [done|].
  cbn [mbind result_bind]. by intros [= <-].
Qed.

Lemma collect_years_raises yd (years : list string) ayd (e : exn) :
  for_each (collect_year yd) years ayd = Raise e → e = ValueError.
Proof.
  revert ayd. induction years as [|y rest IH]; intros ayd; cbn [for_each]; [done|].
  destruct (collect_year yd ayd y) as [ayd1|e1] eqn:H1; cbn [mbind result_bind].
  - apply IH.
  - intros [= <-]. by eapply collect_year_raises.
Qed.

(** C10: for every non-empty input, whenever the aggregation gets as far as
    the list of target years, that list has exactly three years and each of
    them is a key of the aggregated map; so neither loop ever takes its
    branch for a target year missing from the map.  The one way not to get
    that far is the [ValueError] of [int(year)], raised exactly when [int]
    refuses an anchor year. *)
Theorem three_target_years (financial_data : list item) :
  financial_data ≠ [] →
  (∀ ayd, all_year_data_of financial_data = Ok ayd →
     length (target_years_of ayd) = 3
     ∧ Forall (λ y, is_Some (ayd !! y)) (target_years_of ayd))
  ∧ ((∃ ayd, all_year_data_of financial_data = Ok ayd)
     ↔ Forall (λ y, is_Some (py_int y)) (anchor_years (all_years_of financial_data)))
  ∧ (∀ e, all_year_data_of financial_data = Raise e → e = ValueError).
Proof.
  intros Hne. split; [|split].
  - intros ayd Hayd. split; [by apply (all_year_data_three financial_data)|].
    apply Forall_forall. intros y. apply target_years_keys.
  - split.
    + intros [ayd Hayd]. by apply (collect_years_int _ _ _ _ Hayd).
    + intros Hint. apply (collect_years_returns (years_data_of financial_data) _ ∅ Hint).
  - intros e. apply collect_years_raises.
Qed.

(** *** The series *)

Lemma inline_ratios_returns (year_data : gmap string amounts) :
  ∃ s, inline_ratios year_data = Ok s.
Proof. rewrite inline_ratios_six. by eexists. Qed.

Lemma ratio_year_lengths ayd acc acc' (year : string) :
  ratio_year ayd acc year = Ok acc' →
  length (operating_margins acc') = S (length (operating_margins acc))
  ∧ length (net_margins acc') = S (length (net_margins acc))
  ∧ length (roe_values acc') = S (length (roe_values acc))
  ∧ length (roa_values acc') = S (length (roa_values acc))
  ∧ length (debt_ratios acc') = S (length (debt_ratios acc))
  ∧ length (current_ratios acc') = S (length (current_ratios acc)).
Proof.
  unfold ratio_year. destruct (ayd !! year) as [year_data|].
  - destruct (inline_ratios year_data) as [[[[[[om nm] re] dr] ra] cr]|]; [|done].
    cbn [mbind result_bind]. intros [= <-]. cbn.
    rewrite !length_app. cbn. repeat split; lia.
  - intros [= <-]. cbn. rewrite !length_app. cbn. repeat split; lia.
Qed.

Lemma ratio_loop_lengths ayd (years : list string) acc acc' :
  for_each (ratio_year ayd) years acc = Ok acc' →
  length (operating_margins acc') = length (operating_margins acc) + length years
  ∧ length (net_margins acc') = length (net_margins acc) + length years
  ∧ length (roe_values acc') = length (roe_values acc) + length years
  ∧ length (roa_values acc') = length (roa_values acc) + length years
  ∧ length (debt_ratios acc') = length (debt_ratios acc) + length years
  ∧ length (current_ratios acc') = length (current_ratios acc) + length years.
Proof.
  revert acc. induction years as [|y rest IH]; intros acc; cbn [for_each].
  - intros [= <-]. cbn. repeat split; lia.
  - destruct (ratio_year ayd acc y) as [acc1|] eqn:H1; [|done].
    cbn [mbind result_bind]. intros Hrest.
    apply ratio_year_lengths in H1. apply IH in Hrest. cbn [length].
    destruct H1 as (?&?&?&?&?&?), Hrest as (?&?&?&?&?&?).
    repeat split; lia.
Qed.

Lemma growth_pair_lengths ayd (years : list string) acc acc' (i : nat) :
  growth_pair ayd years acc i = Ok acc' →
  length acc'.1 = S (length acc.1) ∧ length acc'.2 = S (length acc.2).
Proof.
  destruct acc as [rgs ngs]. unfold growth_pair.
  destruct (index years i) as [cy|]; [|done]. cbn [mbind result_bind].
  destruct (index years (i + 1)) as [py|]; [|done]. cbn [mbind result_bind].
  assert (∀ x y : option float,
    (Ok (rgs ++ [x], ngs ++ [y]) : result _) = Ok acc' →
    length acc'.1 = S (length rgs) ∧ length acc'.2 = S (length ngs)) as Hfin.
  { intros x y [= <-]. cbn. rewrite !length_app. cbn. lia. }
  destruct (ayd !! cy) as [cd|]; [|apply Hfin].
  destruct (ayd !! py) as [pd|]; [|apply Hfin].
  destruct (extract_growth cd) as [cr ci], (extract_growth pd) as [pr pi].
  destruct (if nonzero pr then _ else _) as [rg|]; [|done]. cbn [mbind result_bind].
  destruct (if nonzero pi then _ else _) as [ng|]; [|done]. cbn [mbind result_bind].
  apply Hfin.
Qed.

Lemma growth_loop_lengths ayd (years : list string) (ixs : list nat) acc acc' :
  for_each (growth_pair ayd years) ixs acc = Ok acc' →
  length acc'.1 = length acc.1 + length ixs ∧ length acc'.2 = length acc.2 + length ixs.
Proof.
  revert acc. induction ixs as [|i rest IH]; intros acc; cbn [for_each].
  - intros [= <-]. cbn [length]. lia.
  - destruct (growth_pair ayd years acc i) as [acc1|] eqn:H1; [|done].
    cbn [mbind result_bind]. intros Hrest.
    apply growth_pair_lengths in H1. apply IH in Hrest. cbn [length]. lia.
Qed.

(** C5: in every response that the assembler returns, each of the six ratio
    series has as many entries as the list of years, both growth series have
    one entry fewer (none when there is at most one year), and the years of
    the growth group are the years of the ratio groups without the last. *)
Theorem series_lengths (corp_code company_name : string) (financial_data : list item)
    (resp : FinancialMetricsResponse) :
  get_financial_metrics corp_code company_name financial_data = Ok resp →
  let fm := financialMetrics resp in
  let gd := growthData resp in
  let dl := debtLiquidityData resp in
  let years := FinancialMetrics.years fm in
  DebtLiquidityData.years dl = years
  ∧ length (FinancialMetrics.operatingMargin fm) = length years
  ∧ length (FinancialMetrics.netMargin fm) = length years
  ∧ length (FinancialMetrics.roe fm) = length years
  ∧ length (FinancialMetrics.roa fm) = length years
  ∧ length (DebtLiquidityData.debtRatio dl) = length years
  ∧ length (DebtLiquidityData.currentRatio dl) = length years
  ∧ length (GrowthData.revenueGrowth gd) = length years - 1
  ∧ length (GrowthData.netIncomeGrowth gd) = length years - 1
  ∧ GrowthData.years gd = take (length years - 1) years.
Proof.
  unfold get_financial_metrics.
  destruct (scan_items financial_data) as [yd ys].
  destruct (decide (yd = ∅)); [by intros [= <-]|].
  destruct (collect_years yd (anchor_years ys)) as [ayd|]; [|done].
  cbn [mbind result_bind].
  destruct (ratio_series ayd (target_years_of ayd)) as [r|] eqn:Hr; [|done].
  cbn [mbind result_bind].
  destruct (growth_series ayd (target_years_of ayd)) as [[rgs ngs]|] eqn:Hg; [|done].
  cbn [mbind result_bind]. intros [= <-]. cbn.
  apply ratio_loop_lengths in Hr. apply growth_loop_lengths in Hg.
  cbn in Hr, Hg. rewrite length_seq in Hg.
  destruct Hr as (?&?&?&?&?&?), Hg as [? ?]. by repeat split.
Qed.

(** C6: with no line item at all the assembler returns the empty response,
    every series and every list of years empty, and raises nothing. *)
Theorem empty_input_empty_response (corp_code company_name : string) :
  get_financial_metrics corp_code company_name [] =
    Ok (Response company_name
          (FinancialMetrics.Make [] [] [] [] [])
          (GrowthData.Make [] [] [])
          (DebtLiquidityData.Make [] [] [])).
Proof. reflexivity. Qed.

(** *** The assembler returns *)

Lemma for_each_returns {A S} (step : S → A → result S) (xs : list A) (acc : S) :
  (∀ x acc, x ∈ xs → ∃ acc', step acc x = Ok acc') →
  ∃ acc', for_each step xs acc = Ok acc'.
Proof.
  revert acc. induction xs as [|x rest IH]; intros acc Hstep; cbn [for_each].
  - by eexists.
  - destruct (Hstep x acc) as [acc1 ->]; [left|]. cbn [mbind result_bind].
    apply IH. intros y acc2 Hy. apply Hstep. by right.
Qed.

Lemma ratio_series_returns ayd (years : list string) :
  ∃ r, ratio_series ayd years = Ok r.
Proof.
  apply for_each_returns. intros y acc _. unfold ratio_year.
  destruct (ayd !! y) as [year_data|]; [|by eexists].
  rewrite inline_ratios_six. cbn [mbind result_bind]. by eexists.
Qed.

Lemma guarded_growth_returns (current previous : float) :
  ∃ g, (if nonzero previous then _calculate_growth_rate current previous else Ok None)
       = Ok g.
Proof.
  destruct (nonzero previous); [apply growth_rate_returns|by eexists].
Qed.

Lemma growth_series_returns ayd (years : list string) :
  ∃ g, growth_series ayd years = Ok g.
Proof.
  apply for_each_returns. intros i [rgs ngs] Hi%elem_of_seq. unfold growth_pair, index.
  destruct (lookup_lt_is_Some_2 years i) as [cy ->]; [lia|].
  destruct (lookup_lt_is_Some_2 years (i + 1)) as [py ->]; [lia|].
  cbn [mbind result_bind].
  destruct (ayd !! cy) as [cd|]; [|by eexists].
  destruct (ayd !! py) as [pd|]; [|by eexists].
  destruct (extract_growth cd) as [cr ci], (extract_growth pd) as [pr pi].
  destruct (guarded_growth_returns cr pr) as [rg ->]. cbn [mbind result_bind].
  destruct (guarded_growth_returns ci pi) as [ng ->]. cbn [mbind result_bind].
  by eexists.
Qed.

(** The only exception that leaves the assembler is the [ValueError] of
    [int(year)]: when [int] accepts the anchor years it returns a response. *)
Lemma get_financial_metrics_returns (corp_code company_name : string)
    (financial_data : list item) :
  Forall (λ y, is_Some (py_int y)) (anchor_years (all_years_of financial_data)) →
  ∃ resp, get_financial_metrics corp_code company_name financial_data = Ok resp.
Proof.
  unfold get_financial_metrics, all_years_of.
  destruct (scan_items financial_data) as [yd ys]. cbn [snd]. intros Hint.
  destruct (decide (yd = ∅)); [by eexists|].
  destruct (collect_years_returns yd _ ∅ Hint) as [ayd Hayd].
  unfold collect_years. rewrite Hayd. cbn [mbind result_bind].
  destruct (ratio_series_returns ayd (target_years_of ayd)) as [r ->].
  cbn [mbind result_bind].
  destruct (growth_series_returns ayd (target_years_of ayd)) as [[rgs ngs] ->].
  cbn [mbind result_bind]. by eexists.
Qed.

(** *** Sorting *)

Lemma sorted_reverse_descending (xs : list string) :
  Sorted str_ge (sorted_reverse xs).
Proof.
  apply Sorted_merge_sort. intros x y. unfold str_ge.
  destruct (String.leb_total x y); auto.
Qed.

Lemma sorted_reverse_same_elements (xs : list string) :
  sorted_reverse xs ≡ₚ xs.
Proof. apply merge_sort_Permutation. Qed.

(** *** Years in decimal notation *)

(** On a year in decimal notation every [int] gives what the decimal
    literals give, so the result for an input whose anchor years are in
    decimal notation can be computed. *)
Lemma decimal_notation_int (s : string) :
  decimal_notation s = true → py_int s = decimal_int s.
Proof.
  unfold decimal_notation. destruct (decimal_int s) as [n|]; [|done].
  intros <-%bool_decide_eq_true. apply py_int_str.
Qed.

(** [int] is called on the anchor years only: two readings of integers that
    agree on them give the same aggregation and the same response. *)
Lemma collect_years_agree (other : PyInt) yd (years : list string) ayd :
  Forall (λ y, @py_int python_int y = @py_int other y) years →
  for_each (@collect_year python_int yd) years ayd
  = for_each (@collect_year other yd) years ayd.
Proof.
  intros Hall. revert ayd.
  induction Hall as [|y rest Hy Hrest IH]; intros ayd; cbn [for_each]; [done|].
  assert (@collect_year python_int yd ayd y = @collect_year other yd ayd y) as ->.
  { unfold collect_year, int. by rewrite Hy. }
  destruct (@collect_year other yd ayd y); cbn [mbind result_bind]; [|done].
  apply IH.
Qed.

Lemma all_year_data_of_agree (other : PyInt) (financial_data : list item) :
  Forall (λ y, @py_int python_int y = @py_int other y)
    (anchor_years (all_years_of financial_data)) →
  @all_year_data_of python_int financial_data = @all_year_data_of other financial_data.
Proof. intros H. unfold all_year_data_of, collect_years. by apply collect_years_agree. Qed.

Lemma get_financial_metrics_agree (other : PyInt) (corp_code company_name : string)
    (financial_data : list item) :
  Forall (λ y, @py_int python_int y = @py_int other y)
    (anchor_years (all_years_of financial_data)) →
  @get_financial_metrics python_int corp_code company_name financial_data
  = @get_financial_metrics other corp_code company_name financial_data.
Proof.
  unfold get_financial_metrics, all_years_of.
  destruct (scan_items financial_data) as [yd ys]. cbn [snd]. intros H.
  destruct (decide (yd = ∅)); [done|].
  unfold collect_years. by rewrite (collect_years_agree other _ _ _ H).
Qed.

Lemma decimal_notation_agree (years : list string) :
  forallb decimal_notation years = true →
  Forall (λ y, py_int y = @py_int decimal_literals y) years.
Proof.
  intros H. apply Forall_forall. intros y Hy%list_elem_of_In.
  apply decimal_notation_int. by apply (proj1 (forallb_forall _ _) H).
Qed.

Lemma all_year_data_of_decimal (financial_data : list item) :
  forallb decimal_notation (anchor_years (all_years_of financial_data)) = true →
  all_year_data_of financial_data = @all_year_data_of decimal_literals financial_data.
Proof. intros H. by apply all_year_data_of_agree, decimal_notation_agree. Qed.

Lemma get_financial_metrics_decimal (corp_code company_name : string)
    (financial_data : list item) :
  forallb decimal_notation (anchor_years (all_years_of financial_data)) = true →
  get_financial_metrics corp_code company_name financial_data
  = @get_financial_metrics decimal_literals corp_code company_name financial_data.
Proof. intros H. by apply get_financial_metrics_agree, decimal_notation_agree. Qed.

(** *** A year that is not in decimal notation *)


(** *** The scenarios *)

(** C9: for the single 2023 filing with revenue 1000, 800, 600 and net income
    100, 80, -50 the assembler returns the years 2023, 2022, 2021, a net
    margin of 10.0 for 2023 and for 2022, and a revenue growth of 25.0 for
    2023 against 2022. *)
Theorem single_filing_scenario (corp_code company_name : string) :
  ∃ resp, get_financial_metrics corp_code company_name filing_2023 = Ok resp
    ∧ FinancialMetrics.years (financialMetrics resp) = ["2023"; "2022"; "2021"]
    ∧ FinancialMetrics.netMargin (financialMetrics resp) !! 0 = Some (Some 10%float)
    ∧ FinancialMetrics.netMargin (financialMetrics resp) !! 1 = Some (Some 10%float)
    ∧ GrowthData.revenueGrowth (growthData resp) !! 0 = Some (Some 25%float)
    ∧ ((1000 - 800) / 800 * 100 = 25)%float.
Proof.
  exists (response_2023 company_name). split.
  - rewrite get_financial_metrics_decimal by (vm_compute; reflexivity).
    vm_compute; reflexivity.
  - repeat split; vm_compute; reflexivity.
Qed.

(** ** Further properties of the assembler *)

Lemma years_data_nonempty (financial_data : list item) :
  financial_data ≠ [] → years_data_of financial_data ≠ ∅.
Proof.
  destruct financial_data as [|it rest]; [done|]. intros _ Hempty.
  assert (bsns_year it ∈ all_years_of (it :: rest)) as Hin.
  { apply all_years_spec. exists it. split; [left|done]. }
  rewrite <- years_data_dom, Hempty, dom_empty_L in Hin.
  by apply not_elem_of_empty in Hin.
Qed.

(** X1: the no-data branch is taken exactly for the empty list of line items. *)
Theorem years_data_empty_iff (financial_data : list item) :
  years_data_of financial_data = ∅ ↔ financial_data = [].
Proof.
  split; [|by intros ->]. intros Hempty.
  destruct (decide (financial_data = [])) as [|Hne]; [done|].
  by destruct (years_data_nonempty _ Hne).
Qed.

(** How a returned response is put together. *)
Lemma get_financial_metrics_inv (corp_code company_name : string)
    (financial_data : list item) (resp : FinancialMetricsResponse) :
  financial_data ≠ [] →
  get_financial_metrics corp_code company_name financial_data = Ok resp →
  ∃ ayd r g,
    all_year_data_of financial_data = Ok ayd
    ∧ ratio_series ayd (target_years_of ayd) = Ok r
    ∧ growth_series ayd (target_years_of ayd) = Ok g
    ∧ resp = Response company_name
        (FinancialMetrics.Make (operating_margins r) (net_margins r)
           (roe_values r) (roa_values r) (target_years_of ayd))
        (GrowthData.Make g.1 g.2
           (take (length (target_years_of ayd) - 1) (target_years_of ayd)))
        (DebtLiquidityData.Make (debt_ratios r) (current_ratios r) (target_years_of ayd)).
Proof.
  intros Hne. unfold get_financial_metrics, all_year_data_of.
  pose proof (years_data_nonempty _ Hne) as Hnonempty.
  unfold years_data_of, all_years_of in *.
  destruct (scan_items financial_data) as [yd ys]. cbn [fst snd] in *.
  destruct (decide (yd = ∅)) as [Hyd|_]; [done|].
  destruct (collect_years yd (anchor_years ys)) as [ayd|] eqn:Hayd; [|done].
  cbn [mbind result_bind].
  destruct (ratio_series ayd (target_years_of ayd)) as [r|] eqn:Hr; [|done].
  cbn [mbind result_bind].
  destruct (growth_series ayd (target_years_of ayd)) as [[rgs ngs]|] eqn:Hg; [|done].
  cbn [mbind result_bind]. intros [= <-]. by exists ayd, r, (rgs, ngs).
Qed.

Lemma response_lengths (corp_code company_name : string)
    (financial_data : list item) (resp : FinancialMetricsResponse) :
  financial_data ≠ [] →
  get_financial_metrics corp_code company_name financial_data = Ok resp →
  length (FinancialMetrics.years (financialMetrics resp)) = 3
  ∧ length (FinancialMetrics.operatingMargin (financialMetrics resp)) = 3
  ∧ length (FinancialMetrics.netMargin (financialMetrics resp)) = 3
  ∧ length (FinancialMetrics.roe (financialMetrics resp)) = 3
  ∧ length (FinancialMetrics.roa (financialMetrics resp)) = 3
  ∧ length (DebtLiquidityData.debtRatio (debtLiquidityData resp)) = 3
  ∧ length (DebtLiquidityData.currentRatio (debtLiquidityData resp)) = 3
  ∧ length (GrowthData.years (growthData resp)) = 2
  ∧ length (GrowthData.revenueGrowth (growthData resp)) = 2
  ∧ length (GrowthData.netIncomeGrowth (growthData resp)) = 2.
Proof.
  intros Hne H.
  destruct (get_financial_metrics_inv _ _ _ _ Hne H) as (ayd & r & g & Hayd & Hr & Hg & ->).
  pose proof (all_year_data_three _ _ Hne Hayd) as H3.
  apply ratio_loop_lengths in Hr. apply growth_loop_lengths in Hg.
  cbn in Hr, Hg. rewrite length_seq in Hg. cbn. rewrite length_take.
  destruct Hr as (?&?&?&?&?&?), Hg as [? ?]. repeat split; lia.
Qed.

(** X2: whatever the line items, a response for a non-empty input has exactly
    three years, three entries in every ratio series and two in every growth
    series. *)
Theorem nonempty_input_three_years (corp_code company_name : string)
    (financial_data : list item) (resp : FinancialMetricsResponse) :
  financial_data ≠ [] →
  get_financial_metrics corp_code company_name financial_data = Ok resp →
  length (FinancialMetrics.years (financialMetrics resp)) = 3
  ∧ length (FinancialMetrics.operatingMargin (financialMetrics resp)) = 3
  ∧ length (FinancialMetrics.netMargin (financialMetrics resp)) = 3
  ∧ length (FinancialMetrics.roe (financialMetrics resp)) = 3
  ∧ length (FinancialMetrics.roa (financialMetrics resp)) = 3
  ∧ length (DebtLiquidityData.debtRatio (debtLiquidityData resp)) = 3
  ∧ length (DebtLiquidityData.currentRatio (debtLiquidityData resp)) = 3
  ∧ length (GrowthData.years (growthData resp)) = 2
  ∧ length (GrowthData.revenueGrowth (growthData resp)) = 2
  ∧ length (GrowthData.netIncomeGrowth (growthData resp)) = 2.
Proof. apply response_lengths. Qed.

(** *** The series, entry by entry *)

Lemma ratio_year_eq ayd acc (year : string) :
  ratio_year ayd acc year =
    let s := six_of_year ayd year in
    Ok (RatioLists (operating_margins acc ++ [s.1.1.1.1.1]) (net_margins acc ++ [s.1.1.1.1.2])
          (roe_values acc ++ [s.1.1.1.2]) (roa_values acc ++ [s.1.2])
          (debt_ratios acc ++ [s.1.1.2]) (current_ratios acc ++ [s.2])).
Proof.
  unfold ratio_year, six_of_year. destruct (ayd !! year) as [year_data|]; [|done].
  rewrite inline_ratios_six. cbn [mbind result_bind].
  by destruct (six_by_rule year_data) as [[[[[om nm] re] dr] ra] cr].
Qed.

Lemma ratio_loop_eq ayd (years : list string) acc :
  for_each (ratio_year ayd) years acc =
    Ok (RatioLists
          (operating_margins acc ++ ((λ y, (six_of_year ayd y).1.1.1.1.1) <$> years))
          (net_margins acc ++ ((λ y, (six_of_year ayd y).1.1.1.1.2) <$> years))
          (roe_values acc ++ ((λ y, (six_of_year ayd y).1.1.1.2) <$> years))
          (roa_values acc ++ ((λ y, (six_of_year ayd y).1.2) <$> years))
          (debt_ratios acc ++ ((λ y, (six_of_year ayd y).1.1.2) <$> years))
          (current_ratios acc ++ ((λ y, (six_of_year ayd y).2) <$> years))).
Proof.
  revert acc. induction years as [|y rest IH]; intros acc; cbn [for_each].
  - cbn. rewrite !app_nil_r. by destruct acc.
  - rewrite ratio_year_eq. cbn [mbind result_bind]. rewrite IH. cbn.
    by rewrite <- !app_assoc.
Qed.

Lemma guarded_growth_eq (current previous : float) :
  (if nonzero previous then _calculate_growth_rate current previous else Ok None)
  = Ok (growth_rate_reference current previous).
Proof.
  unfold nonzero, _calculate_growth_rate, growth_rate_reference.
  destruct (previous =? 0)%float eqn:Hz; [done|]. cbn [negb].
  destruct ((previous <? 0)%float && (0 <? current)%float); [done|].
  destruct ((0 <? previous)%float && (current <? 0)%float); [done|].
  by rewrite (div_ok _ _ (abs_nonzero _ Hz)).
Qed.

Lemma growth_pair_eq ayd (years : list string) acc (i : nat) (cy py : string) :
  years !! i = Some cy → years !! (i + 1) = Some py →
  growth_pair ayd years acc i =
    Ok (acc.1 ++ [(growth_of_years ayd cy py).1], acc.2 ++ [(growth_of_years ayd cy py).2]).
Proof.
  intros Hc Hp. destruct acc as [rgs ngs]. unfold growth_pair, index, growth_of_years.
  rewrite Hc, Hp. cbn [mbind result_bind fst snd].
  destruct (ayd !! cy) as [cd|]; [|done].
  destruct (ayd !! py) as [pd|]; [|done].
  rewrite !extract_growth_lookup, !guarded_growth_eq. done.
Qed.

(** The growth figures of the pair of years at indices [i] and [i + 1]. *)
Lemma growth_loop_eq ayd (years : list string) (k a : nat) acc :
  a + k < length years ∨ k = 0 →
  for_each (growth_pair ayd years) (seq a k) acc =
    Ok (acc.1 ++ ((λ i, (growth_at ayd years i).1) <$> seq a k),
        acc.2 ++ ((λ i, (growth_at ayd years i).2) <$> seq a k)).
Proof.
  revert a acc. induction k as [|k IH]; intros a acc Hk; cbn [seq for_each].
  - cbn. rewrite !app_nil_r. by destruct acc.
  - destruct Hk as [Hk|?]; [|lia].
    destruct (lookup_lt_is_Some_2 years a) as [c0 Hc0]; [lia|].
    destruct (lookup_lt_is_Some_2 years (a + 1)) as [p0 Hp0]; [lia|].
    rewrite (growth_pair_eq _ _ _ _ _ _ Hc0 Hp0). cbn [mbind result_bind].
    rewrite IH by lia. cbn [fst snd fmap list_fmap].
    assert (growth_at ayd years a = growth_of_years ayd c0 p0) as ->.
    { unfold growth_at. by rewrite Hc0, Hp0. }
    by rewrite <- !app_assoc.
Qed.

Lemma all_year_data_of_nil : all_year_data_of [] = Ok ∅.
Proof. reflexivity. Qed.

(** X3: in every returned response the [i]-th entry of each ratio series is the
    ratio of the [i]-th year of the response, computed by the ratio rule from
    the current amounts that the aggregated map holds for that year. *)
Theorem ratio_series_follow_years (corp_code company_name : string)
    (financial_data : list item) (resp : FinancialMetricsResponse) :
  get_financial_metrics corp_code company_name financial_data = Ok resp →
  ∃ ayd, all_year_data_of financial_data = Ok ayd ∧
    ∀ i year, FinancialMetrics.years (financialMetrics resp) !! i = Some year →
      DebtLiquidityData.years (debtLiquidityData resp) !! i = Some year ∧
      ∃ year_data, ayd !! year = Some year_data ∧
        let amt name := get_amount year_data name thstrm in
        FinancialMetrics.operatingMargin (financialMetrics resp) !! i
          = Some (percentage_or_null (amt "영업이익") (amt "매출액"))
        ∧ FinancialMetrics.netMargin (financialMetrics resp) !! i
          = Some (percentage_or_null (amt "당기순이익") (amt "매출액"))
        ∧ FinancialMetrics.roe (financialMetrics resp) !! i
          = Some (percentage_or_null (amt "당기순이익") (amt "자본총계"))
        ∧ FinancialMetrics.roa (financialMetrics resp) !! i
          = Some (percentage_or_null (amt "당기순이익") (amt "자산총계"))
        ∧ DebtLiquidityData.debtRatio (debtLiquidityData resp) !! i
          = Some (percentage_or_null (amt "부채총계") (amt "자본총계"))
        ∧ DebtLiquidityData.currentRatio (debtLiquidityData resp) !! i
          = Some (percentage_or_null (amt "유동자산") (amt "유동부채")).
Proof.
  intros H. destruct (decide (financial_data = [])) as [->|Hne].
  { injection H as <-. exists ∅. split; [done|]. intros i year Hi. cbn in Hi.
    by destruct i. }
  destruct (get_financial_metrics_inv _ _ _ _ Hne H) as (ayd & r & g & Hayd & Hr & Hg & ->).
  exists ayd. split; [done|]. cbn. intros i year Hi. split; [done|].
  destruct (target_years_keys ayd year) as [year_data Hyd].
  { by eapply list_elem_of_lookup_2. }
  exists year_data. split; [done|].
  unfold ratio_series in Hr. rewrite ratio_loop_eq in Hr. injection Hr as <-. cbn.
  rewrite !list_lookup_fmap, Hi. cbn. unfold six_of_year. rewrite Hyd. done.
Qed.

(** X4: in every returned response the [i]-th entry of each growth series
    compares the [i]-th year of the response with the year after it in the
    list, by the growth rule on the current amounts that the aggregated map
    holds for the two years; the guard on a zero previous amount changes
    nothing. *)
Theorem growth_series_follow_years (corp_code company_name : string)
    (financial_data : list item) (resp : FinancialMetricsResponse) :
  get_financial_metrics corp_code company_name financial_data = Ok resp →
  ∃ ayd, all_year_data_of financial_data = Ok ayd ∧
    ∀ i current_year prev_year,
      FinancialMetrics.years (financialMetrics resp) !! i = Some current_year →
      FinancialMetrics.years (financialMetrics resp) !! (i + 1) = Some prev_year →
      GrowthData.years (growthData resp) !! i = Some current_year ∧
      ∃ current_data prev_data,
        ayd !! current_year = Some current_data ∧ ayd !! prev_year = Some prev_data
        ∧ GrowthData.revenueGrowth (growthData resp) !! i
          = Some (growth_rate_reference (get_amount current_data "매출액" thstrm)
                    (get_amount prev_data "매출액" thstrm))
        ∧ GrowthData.netIncomeGrowth (growthData resp) !! i
          = Some (growth_rate_reference (get_amount current_data "당기순이익" thstrm)
                    (get_amount prev_data "당기순이익" thstrm)).
Proof.
  intros H. destruct (decide (financial_data = [])) as [->|Hne].
  { injection H as <-. exists ∅. split; [done|]. intros i cy py Hi. cbn in Hi.
    by destruct i. }
  destruct (get_financial_metrics_inv _ _ _ _ Hne H) as (ayd & r & g & Hayd & Hr & Hg & ->).
  exists ayd. split; [done|]. cbn. intros i cy py Hc Hp.
  pose proof (lookup_lt_Some _ _ _ Hp) as Hlt.
  split. { rewrite lookup_take_lt by lia. done. }
  destruct (target_years_keys ayd cy) as [cd Hcd]; [by eapply list_elem_of_lookup_2|].
  destruct (target_years_keys ayd py) as [pd Hpd]; [by eapply list_elem_of_lookup_2|].
  exists cd, pd. split; [done|]. split; [done|].
  unfold growth_series in Hg. rewrite growth_loop_eq in Hg by lia.
  injection Hg as <-. cbn.
  rewrite !list_lookup_fmap, !lookup_seq_lt by lia. cbn.
  unfold growth_at. rewrite Hc, Hp. unfold growth_of_years. rewrite Hcd, Hpd. done.
Qed.

(** *** Order of the years *)

Lemma Sorted_take {A} (R : relation A) (l : list A) (n : nat) :
  Sorted R l → Sorted R (take n l).
Proof.
  intros H. revert n. induction H as [|x l Hl IH Hhd]; intros [|n]; cbn; try constructor.
  - apply IH.
  - destruct Hhd; destruct n; cbn; by constructor.
Qed.

Lemma target_years_NoDup ayd : NoDup (target_years_of ayd).
Proof.
  unfold target_years_of, sorted_reverse.
  apply (sublist_NoDup _ (merge_sort str_ge (elements (dom ayd)))); [|apply sublist_take].
  rewrite merge_sort_Permutation. apply NoDup_elements.
Qed.

Lemma target_years_Sorted ayd : Sorted str_ge (target_years_of ayd).
Proof. apply Sorted_take, sorted_reverse_descending. Qed.

(** X5: the years of a returned response are pairwise distinct and in descending
    order of the string comparison: each year is followed by a smaller one. *)
Theorem response_years_descending (corp_code company_name : string)
    (financial_data : list item) (resp : FinancialMetricsResponse) :
  get_financial_metrics corp_code company_name financial_data = Ok resp →
  NoDup (FinancialMetrics.years (financialMetrics resp))
  ∧ Sorted (λ x y, String.leb y x = true ∧ x ≠ y)
      (FinancialMetrics.years (financialMetrics resp)).
Proof.
  intros H.
  assert (NoDup (FinancialMetrics.years (financialMetrics resp))
          ∧ Sorted str_ge (FinancialMetrics.years (financialMetrics resp))) as [Hnd Hs].
  { destruct (decide (financial_data = [])) as [->|Hne].
    - injection H as <-. cbn. split; constructor.
    - destruct (get_financial_metrics_inv _ _ _ _ Hne H)
        as (ayd & r & g & Hayd & Hr & Hg & ->). cbn.
      split; [apply target_years_NoDup|apply target_years_Sorted]. }
  split; [done|].
  induction Hs as [|x l Hl IH Hhd]; [constructor|].
  apply NoDup_cons in Hnd as [Hx Hnd]. constructor; [by apply IH|].
  destruct Hhd as [|y l' Hxy]; constructor. split; [done|].
  intros ->. apply Hx. left.
Qed.

(** *** Accounts and line items that change nothing *)

Lemma get_amount_insert_ne (m : gmap string amounts) (a name : string) (v : amounts)
    (key : amounts → option float) :
  a ≠ name → get_amount (<[a := v]> m) name key = get_amount m name key.
Proof. intros Hne. unfold get_amount. by rewrite lookup_insert_ne. Qed.

(** X8: an account whose name is none of the eight that the ratio code reads has
    no effect on either ratio path: adding it or changing its amounts leaves
    every ratio and every growth figure as it was. *)
Theorem unrecognised_account_ignored (year_data : gmap string amounts)
    (a : string) (v : amounts) :
  a ∉ recognised_accounts →
  inline_ratios (<[a := v]> year_data) = inline_ratios year_data
  ∧ _calculate_ratios (<[a := v]> year_data) = _calculate_ratios year_data
  ∧ extract_growth (<[a := v]> year_data) = extract_growth year_data.
Proof.
  intros Ha.
  assert (∀ name key, name ∈ recognised_accounts →
    get_amount (<[a := v]> year_data) name key = get_amount year_data name key) as Hget.
  { intros name key Hname. apply get_amount_insert_ne. by intros ->. }
  repeat split.
  - rewrite !inline_ratios_six. unfold six_by_rule.
    rewrite !Hget by (unfold recognised_accounts; set_solver). done.
  - unfold _calculate_ratios.
    rewrite !Hget by (unfold recognised_accounts; set_solver). done.
  - rewrite !extract_growth_lookup.
    rewrite !Hget by (unfold recognised_accounts; set_solver). done.
Qed.

Lemma scan_item_duplicate st (it : item) :
  bsns_year it ∈ st.2 →
  is_Some (entry st.1 (bsns_year it) (account_nm it)) →
  scan_item st it = st.
Proof.
  destruct st as [yd ys]. cbn [fst snd]. unfold entry, scan_item. intros Hy [v Hv].
  destruct (yd !! bsns_year it) as [d|] eqn:Hd; [|done]. cbn in Hv.
  rewrite Hd. cbn. rewrite Hv. f_equal. set_solver.
Qed.

(** X9: a line item whose year and account name already occurred earlier in the
    list has no effect at all: the response is the one for the list without
    it. *)
Theorem repeated_item_ignored (corp_code company_name : string)
    (before after : list item) (it first : item) :
  first ∈ before →
  bsns_year first = bsns_year it → account_nm first = account_nm it →
  get_financial_metrics corp_code company_name (before ++ it :: after)
  = get_financial_metrics corp_code company_name (before ++ after).
Proof.
  intros Hin Hy Ha.
  assert (scan_items (before ++ it :: after) = scan_items (before ++ after)) as Hscan.
  { unfold scan_items. rewrite !foldl_app. cbn [foldl]. f_equal.
    apply scan_item_duplicate.
    - apply (proj2 (scan_years before (∅, ∅) ltac:(by cbn; rewrite dom_empty_L))).
      right. by exists first.
    - rewrite scan_entry. cbn [fst]. unfold entry at 1. rewrite lookup_empty. cbn.
      apply fmap_is_Some.
      destruct (head (filter _ before)) eqn:Hhead; [by eexists|].
      apply head_None in Hhead.
      assert (first ∈ filter (λ it0, bsns_year it0 = bsns_year it
                                      ∧ account_nm it0 = account_nm it) before) as Hf.
      { by apply list_elem_of_filter. }
      rewrite Hhead in Hf. by apply elem_of_nil in Hf. }
  unfold get_financial_metrics. by rewrite Hscan.
Qed.

(** *** The growth figures of the calculator *)

Lemma growth_rate_eq (current previous : float) :
  _calculate_growth_rate current previous = Ok (growth_rate_reference current previous).
Proof.
  rewrite <- guarded_growth_eq. unfold nonzero.
  destruct (previous =? 0)%float eqn:Hz; [|done].
  unfold _calculate_growth_rate. by rewrite Hz.
Qed.

(** X11: the three growth entries of [_calculate_ratios] follow the growth rule on
    the current and the prior amount of one account of the same year map:
    revenue for [sales_growth], operating profit for
    [operating_profit_growth], and net income for [eps_growth]. *)
Theorem calculate_ratios_growth (year_data : gmap string amounts) :
  ∃ r, _calculate_ratios year_data = Ok r
    ∧ Ratios.sales_growth r =
        growth_rate_reference (get_amount year_data "매출액" thstrm)
          (get_amount year_data "매출액" frmtrm)
    ∧ Ratios.operating_profit_growth r =
        growth_rate_reference (get_amount year_data "영업이익" thstrm)
          (get_amount year_data "영업이익" frmtrm)
    ∧ Ratios.eps_growth r =
        growth_rate_reference (get_amount year_data "당기순이익" thstrm)
          (get_amount year_data "당기순이익" frmtrm).
Proof.
  unfold _calculate_ratios. rewrite !ratio_pct_eq, !growth_rate_eq.
  cbn [mbind result_bind]. eexists. split; [reflexivity|]. by repeat split.
Qed.

(** *** The years of the aggregated map *)

Lemma source_of_is_Some (year k : string) :
  is_Some (source_of year k)
  ↔ ∃ n, py_int year = Some n ∧ (k = py_str (n - 1) ∨ k = py_str (n - 2)).
Proof.
  unfold source_of. destruct (py_int year) as [n|].
  - destruct (decide (k = py_str (n - 1))) as [->|H1].
    + split; [intros _; exists n; auto|by eexists].
    + destruct (decide (k = py_str (n - 2))) as [->|H2].
      * split; [intros _; exists n; auto|by eexists].
      * split; [by intros [? ?]|]. intros (n' & [= <-] & [?|?]); done.
  - split; [by intros [? ?]|]. by intros (n & ? & _).
Qed.

Lemma first_source_is_Some (years : list string) (k : string) :
  is_Some (first_source years k) ↔ ∃ year, year ∈ years ∧ is_Some (source_of year k).
Proof.
  induction years as [|y rest IH]; cbn.
  - split; [by intros [? ?]|]. intros (year & Hin & _). by apply elem_of_nil in Hin.
  - destruct (source_of y k) as [key|] eqn:Hy.
    + split; [|by eexists]. intros _. exists y. split; [left|]. by rewrite Hy.
    + rewrite IH. split.
      * intros (year & Hin & Hs). exists year. split; [by right|done].
      * intros (year & [->|Hin]%elem_of_cons & Hs).
        -- rewrite Hy in Hs. by destruct Hs.
        -- by exists year.
Qed.

Lemma aggregated_years_aux (financial_data : list item) ayd (k : string) :
  all_year_data_of financial_data = Ok ayd →
  is_Some (ayd !! k) ↔
    k ∈ anchor_years (all_years_of financial_data)
    ∨ ∃ year n, year ∈ anchor_years (all_years_of financial_data)
        ∧ py_int year = Some n ∧ (k = py_str (n - 1) ∨ k = py_str (n - 2)).
Proof.
  intros H. rewrite (all_year_data_lookup _ _ H k).
  destruct (decide (k ∈ anchor_years (all_years_of financial_data))) as [Hin|Hnin].
  - split; [by left|]. intros _. by apply anchor_years_filed.
  - split.
    + intros Hsome. right.
      assert (is_Some (first_source (anchor_years (all_years_of financial_data)) k)) as Hf.
      { destruct (first_source _ k) as [[y key]|]; [by eexists|by destruct Hsome]. }
      apply first_source_is_Some in Hf as (year & Hyear & Hs).
      apply source_of_is_Some in Hs as (n & Hn & Hk). by exists year, n.
    + intros [?|(year & n & Hyear & Hn & Hk)]; [done|].
      assert (is_Some (first_source (anchor_years (all_years_of financial_data)) k))
        as [[y key] ->]; [|by eexists].
      apply first_source_is_Some. exists year. split; [done|].
      apply source_of_is_Some. by exists n.
Qed.

(** X6: the aggregated map has a year exactly when it is an anchor year, or the
    year before an anchor year, or the year two before an anchor year. *)
Theorem aggregated_years (financial_data : list item) ayd (k : string) :
  all_year_data_of financial_data = Ok ayd →
  is_Some (ayd !! k) ↔
    k ∈ anchor_years (all_years_of financial_data)
    ∨ ∃ year n, year ∈ anchor_years (all_years_of financial_data)
        ∧ py_int year = Some n ∧ (k = py_str (n - 1) ∨ k = py_str (n - 2)).
Proof. apply aggregated_years_aux. Qed.

Lemma size_list_to_set_le (l : list string) :
  size (list_to_set l : gset string) ≤ length l.
Proof.
  induction l as [|x l IH]; cbn.
  - by rewrite size_empty.
  - rewrite size_union_alt, size_singleton.
    pose proof (subseteq_size (list_to_set l ∖ {[x]}) (list_to_set l : gset string)
      ltac:(set_solver)). lia.
Qed.

Lemma length_omap_le {A B} (f : A → option B) (l : list A) :
  length (omap f l) ≤ length l.
Proof. induction l as [|x l IH]; cbn; [done|]. destruct (f x); cbn; lia. Qed.

(** X7: for a non-empty input the aggregated map holds at least three and at
    most nine years. *)
Theorem aggregated_years_bounds (financial_data : list item) ayd :
  financial_data ≠ [] →
  all_year_data_of financial_data = Ok ayd →
  3 ≤ size (dom ayd) ≤ 9.
Proof.
  intros Hne H. split.
  - pose proof (all_year_data_three _ _ Hne H) as H3.
    rewrite target_years_length in H3. lia.
  - set (years := anchor_years (all_years_of financial_data)).
    set (keys := years
      ++ omap (λ y, (λ n, py_str (n - 1)) <$> py_int y) years
      ++ omap (λ y, (λ n, py_str (n - 2)) <$> py_int y) years).
    assert (dom ayd ⊆ list_to_set keys) as Hsub.
    { intros k Hk%elem_of_dom. apply elem_of_list_to_set.
      apply (aggregated_years_aux _ _ k H) in Hk as [Hk|(year & n & Hyear & Hn & [->| ->])];
        unfold keys; rewrite !elem_of_app.
      - by left.
      - right; left. apply list_elem_of_omap. exists year. split; [done|]. by rewrite Hn.
      - right; right. apply list_elem_of_omap. exists year. split; [done|]. by rewrite Hn. }
    apply subseteq_size in Hsub.
    pose proof (size_list_to_set_le keys) as Hle.
    assert (length years ≤ 3) as Hyears.
    { unfold years, anchor_years. rewrite length_take. lia. }
    assert (length keys ≤ 9) as H9.
    { unfold keys. rewrite !length_app.
      pose proof (length_omap_le (λ y, (λ n, py_str (n - 1)) <$> py_int y) years).
      pose proof (length_omap_le (λ y, (λ n, py_str (n - 2)) <$> py_int y) years).
      lia. }
    lia.
Qed.

(** ** The facade *)

Lemma at_or_none_lookup (xs : list (option float)) (i : nat) :
  FinService.at_or_none xs i = default None (xs !! i).
Proof.
  unfold FinService.at_or_none. destruct (decide (i < length xs)) as [|Hge]; [done|].
  rewrite lookup_ge_None_2 by lia. done.
Qed.

Lemma format_ratios_data_eq (m : FinancialMetricsResponse) :
  FinService._format_ratios_data (Some m)
  = imap (FinService.format_row m) (FinancialMetrics.years (financialMetrics m)).
Proof.
  unfold FinService._format_ratios_data.
  by destruct (FinancialMetrics.years (financialMetrics m)).
Qed.

Lemma format_row_lookup (m : FinancialMetricsResponse) (i : nat) (year : string) :
  let row := FinService.format_row m i year in
  let fm := financialMetrics m in
  let gd := growthData m in
  let dl := debtLiquidityData m in
  row !! "사업연도" = Some (FinService.Year year)
  ∧ row !! "부채비율"
    = Some (FinService.Number (default None (DebtLiquidityData.debtRatio dl !! i)))
  ∧ row !! "유동비율"
    = Some (FinService.Number (default None (DebtLiquidityData.currentRatio dl !! i)))
  ∧ row !! "영업이익률"
    = Some (FinService.Number (default None (FinancialMetrics.operatingMargin fm !! i)))
  ∧ row !! "순이익률"
    = Some (FinService.Number (default None (FinancialMetrics.netMargin fm !! i)))
  ∧ row !! "ROE"
    = Some (FinService.Number (default None (FinancialMetrics.roe fm !! i)))
  ∧ row !! "ROA"
    = Some (FinService.Number (default None (FinancialMetrics.roa fm !! i)))
  ∧ row !! "매출액증가율"
    = (if decide (i < length (GrowthData.years gd))
       then Some (FinService.Number (default None (GrowthData.revenueGrowth gd !! i)))
       else None)
  ∧ row !! "순이익증가율"
    = (if decide (i < length (GrowthData.years gd))
       then Some (FinService.Number (default None (GrowthData.netIncomeGrowth gd !! i)))
       else None).
Proof.
  cbv zeta. unfold FinService.format_row. rewrite !at_or_none_lookup.
  destruct (decide (i < length (GrowthData.years (growthData m)))); repeat split;
    by simplify_map_eq.
Qed.

(** X16: [_format_ratios_data] gives one row per year of the ratio group, in the
    same order; the row at index [i] has the seven keys of the year and the
    six ratios, each ratio being the entry at index [i] of its series or null
    when the series is too short, and it has the two growth keys exactly when
    [i] is an index of the years of the growth group. *)
Theorem format_ratios_data_rows (m : FinancialMetricsResponse) :
  let rows := FinService._format_ratios_data (Some m) in
  let fm := financialMetrics m in
  let gd := growthData m in
  let dl := debtLiquidityData m in
  length rows = length (FinancialMetrics.years fm)
  ∧ ∀ i year, FinancialMetrics.years fm !! i = Some year →
      ∃ row, rows !! i = Some row
        ∧ row !! "사업연도" = Some (FinService.Year year)
        ∧ row !! "부채비율"
          = Some (FinService.Number (default None (DebtLiquidityData.debtRatio dl !! i)))
        ∧ row !! "유동비율"
          = Some (FinService.Number (default None (DebtLiquidityData.currentRatio dl !! i)))
        ∧ row !! "영업이익률"
          = Some (FinService.Number (default None (FinancialMetrics.operatingMargin fm !! i)))
        ∧ row !! "순이익률"
          = Some (FinService.Number (default None (FinancialMetrics.netMargin fm !! i)))
        ∧ row !! "ROE"
          = Some (FinService.Number (default None (FinancialMetrics.roe fm !! i)))
        ∧ row !! "ROA"
          = Some (FinService.Number (default None (FinancialMetrics.roa fm !! i)))
        ∧ row !! "매출액증가율"
          = (if decide (i < length (GrowthData.years gd))
             then Some (FinService.Number (default None (GrowthData.revenueGrowth gd !! i)))
             else None)
        ∧ row !! "순이익증가율"
          = (if decide (i < length (GrowthData.years gd))
             then Some (FinService.Number (default None (GrowthData.netIncomeGrowth gd !! i)))
             else None).
Proof.
  cbv zeta. rewrite format_ratios_data_eq.
  split; [apply length_imap|].
  intros i year Hi. exists (FinService.format_row m i year).
  split; [by rewrite list_lookup_imap, Hi|].
  apply format_row_lookup.
Qed.

(** X17: the rows that [_format_ratios_data] makes of a response of the assembler
    for a non-empty input: three rows; in each the year and the six ratios
    are entries of the response, none of them a padding null; the first two
    rows carry the two growth figures and the last row has no growth key. *)
Theorem format_of_assembled (corp_code company_name : string)
    (financial_data : list item) (m : FinancialMetricsResponse) :
  financial_data ≠ [] →
  get_financial_metrics corp_code company_name financial_data = Ok m →
  let rows := FinService._format_ratios_data (Some m) in
  length rows = 3
  ∧ ∀ i row, rows !! i = Some row →
      (∃ year, FinancialMetrics.years (financialMetrics m) !! i = Some year
         ∧ row !! "사업연도" = Some (FinService.Year year))
      ∧ (∃ x, DebtLiquidityData.debtRatio (debtLiquidityData m) !! i = Some x
         ∧ row !! "부채비율" = Some (FinService.Number x))
      ∧ (∃ x, DebtLiquidityData.currentRatio (debtLiquidityData m) !! i = Some x
         ∧ row !! "유동비율" = Some (FinService.Number x))
      ∧ (∃ x, FinancialMetrics.operatingMargin (financialMetrics m) !! i = Some x
         ∧ row !! "영업이익률" = Some (FinService.Number x))
      ∧ (∃ x, FinancialMetrics.netMargin (financialMetrics m) !! i = Some x
         ∧ row !! "순이익률" = Some (FinService.Number x))
      ∧ (∃ x, FinancialMetrics.roe (financialMetrics m) !! i = Some x
         ∧ row !! "ROE" = Some (FinService.Number x))
      ∧ (∃ x, FinancialMetrics.roa (financialMetrics m) !! i = Some x
         ∧ row !! "ROA" = Some (FinService.Number x))
      ∧ (i < 2 →
         (∃ x, GrowthData.revenueGrowth (growthData m) !! i = Some x
            ∧ row !! "매출액증가율" = Some (FinService.Number x))
         ∧ (∃ x, GrowthData.netIncomeGrowth (growthData m) !! i = Some x
            ∧ row !! "순이익증가율" = Some (FinService.Number x)))
      ∧ (i = 2 → row !! "매출액증가율" = None ∧ row !! "순이익증가율" = None).
Proof.
  intros Hne H. cbv zeta.
  destruct (response_lengths _ _ _ _ Hne H)
    as (Hy & Hom & Hnm & Hre & Hra & Hdr & Hcr & Hgy & Hrg & Hng).
  rewrite format_ratios_data_eq. split; [by rewrite length_imap|].
  intros i row Hrow. apply list_lookup_imap_Some in Hrow as (year & Hyear & ->).
  pose proof (lookup_lt_Some _ _ _ Hyear) as Hi. rewrite Hy in Hi.
  destruct (format_row_lookup m i year)
    as (Ky & Kdr & Kcr & Kom & Knm & Kre & Kra & Krg & Kng).
  assert (∀ xs : list (option float), i < length xs →
    ∃ x, xs !! i = Some x ∧ default None (xs !! i) = x) as Hget.
  { intros xs Hlt. destruct (lookup_lt_is_Some_2 xs i Hlt) as [x Hx].
    exists x. by rewrite Hx. }
  split; [by exists year|].
  split; [destruct (Hget (DebtLiquidityData.debtRatio (debtLiquidityData m)))
            as (x & Hx & Hd); [lia|]; exists x; by rewrite Kdr, Hd|].
  split; [destruct (Hget (DebtLiquidityData.currentRatio (debtLiquidityData m)))
            as (x & Hx & Hd); [lia|]; exists x; by rewrite Kcr, Hd|].
  split; [destruct (Hget (FinancialMetrics.operatingMargin (financialMetrics m)))
            as (x & Hx & Hd); [lia|]; exists x; by rewrite Kom, Hd|].
  split; [destruct (Hget (FinancialMetrics.netMargin (financialMetrics m)))
            as (x & Hx & Hd); [lia|]; exists x; by rewrite Knm, Hd|].
  split; [destruct (Hget (FinancialMetrics.roe (financialMetrics m)))
            as (x & Hx & Hd); [lia|]; exists x; by rewrite Kre, Hd|].
  split; [destruct (Hget (FinancialMetrics.roa (financialMetrics m)))
            as (x & Hx & Hd); [lia|]; exists x; by rewrite Kra, Hd|].
  rewrite Hgy in Krg, Kng. split.
  - intros Hi2. rewrite decide_True in Krg, Kng by done. split.
    + destruct (Hget (GrowthData.revenueGrowth (growthData m))) as (x & Hx & Hd); [lia|].
      exists x. by rewrite Krg, Hd.
    + destruct (Hget (GrowthData.netIncomeGrowth (growthData m))) as (x & Hx & Hd); [lia|].
      exists x. by rewrite Kng, Hd.
  - intros ->. by rewrite decide_False in Krg, Kng by lia.
Qed.

(** [_format_ratios_data] gives no row for a missing response and for a
    response without years, such as the empty response. *)
Lemma format_without_years (m : FinancialMetricsResponse) :
  FinService._format_ratios_data None = []
  ∧ (FinancialMetrics.years (financialMetrics m) = [] →
     FinService._format_ratios_data (Some m) = []).
Proof.
  split; [done|]. intros H. unfold FinService._format_ratios_data. by rewrite H.
Qed.

Lemma facade_metrics_cases (corp_code company_name : string) (raw : FinService.raw_data) :
  FinService.get_financial_metrics corp_code company_name raw =
    if decide (FinService.status raw = "success")
    then match FinService.data raw with
         | Some (it :: rest) => get_financial_metrics corp_code company_name (it :: rest)
         | _ => Ok (_empty_metrics_response company_name)
         end
    else Ok (_empty_metrics_response company_name).
Proof.
  unfold FinService.get_financial_metrics, FinService.no_data.
  destruct (decide (FinService.status raw = "success")) as [Hs|Hs].
  - rewrite bool_decide_eq_true_2 by done. cbn [negb orb].
    by destruct (FinService.data raw) as [[|it rest]|].
  - by rewrite bool_decide_eq_false_2 by done.
Qed.

(** X18: when the fetch did not succeed or brought no line item, the facade
    returns, and what it returns is the empty response; otherwise it does
    what the assembler does for the fetched items, and a response it returns
    has exactly three years. *)
Theorem facade_metrics_years (corp_code company_name : string)
    (raw : FinService.raw_data) :
  (FinService.status raw ≠ "success" ∨ FinService.data raw = None
   ∨ FinService.data raw = Some [] →
   FinService.get_financial_metrics corp_code company_name raw
   = Ok (_empty_metrics_response company_name))
  ∧ (∀ it rest, FinService.status raw = "success" →
       FinService.data raw = Some (it :: rest) →
       FinService.get_financial_metrics corp_code company_name raw
       = get_financial_metrics corp_code company_name (it :: rest))
  ∧ (∀ resp, FinService.get_financial_metrics corp_code company_name raw = Ok resp →
       (resp = _empty_metrics_response company_name
        ∧ (FinService.status raw ≠ "success" ∨ FinService.data raw = None
           ∨ FinService.data raw = Some []))
       ∨ (length (FinancialMetrics.years (financialMetrics resp)) = 3
          ∧ FinService.status raw = "success"
          ∧ ∃ it rest, FinService.data raw = Some (it :: rest)
              ∧ get_financial_metrics corp_code company_name (it :: rest) = Ok resp)).
Proof.
  rewrite facade_metrics_cases. split; [|split].
  - intros Hno. destruct (decide (FinService.status raw = "success")) as [Hs|Hs]; [|done].
    destruct Hno as [?|[-> | ->]]; done.
  - intros it rest Hs ->. by rewrite decide_True.
  - intros resp. destruct (decide (FinService.status raw = "success")) as [Hs|Hs].
    + destruct (FinService.data raw) as [[|it rest]|] eqn:Hd.
      * intros [= <-]. left. auto.
      * intros H. right.
        split; [|split; [done|exists it, rest; by split]].
        assert (it :: rest ≠ []) as Hne by done.
        by destruct (response_lengths _ _ _ _ Hne H) as [? _].
      * intros [= <-]. left. auto.
    + intros [= <-]. left. auto.
Qed.

(** X19: when its own fetch reported an error or brought no line item,
    [get_financial_ratios] returns, with status "success" and no row; and
    every reply it returns has status "success" and none or three rows. *)
Theorem ratios_reply_rows (corp_code company_name : string)
    (fetched raw : FinService.raw_data) :
  (FinService.status fetched = "error" ∨ FinService.data fetched = None
   ∨ FinService.data fetched = Some [] →
   FinService.get_financial_ratios corp_code company_name fetched raw
   = Ok (FinService.RatiosReply "success" "재무비율이 성공적으로 조회되었습니다." []))
  ∧ (∀ reply,
       FinService.get_financial_ratios corp_code company_name fetched raw = Ok reply →
       FinService.reply_status reply = "success"
       ∧ (length (FinService.reply_data reply) = 0
          ∨ length (FinService.reply_data reply) = 3)
       ∧ (FinService.status fetched = "error" → FinService.reply_data reply = [])).
Proof.
  unfold FinService.get_financial_ratios. split.
  { intros Hno. destruct (bool_decide (FinService.status fetched = "error")) eqn:He; [done|].
    apply bool_decide_eq_false in He. cbn [orb]. unfold FinService.no_data.
    destruct Hno as [?|[-> | ->]]; done. }
  intros reply.
  destruct (bool_decide (FinService.status fetched = "error")) eqn:He.
  - cbn [orb]. intros [= <-]. cbn. auto.
  - apply bool_decide_eq_false in He. cbn [orb].
    destruct (FinService.no_data fetched); [intros [= <-]; cbn; auto|].
    destruct (FinService.get_financial_metrics corp_code company_name raw)
      as [m|] eqn:Hm; [|done].
    cbn [mbind result_bind]. cbv zeta. rewrite format_ratios_data_eq.
    intros [= <-]. cbn [FinService.reply_status FinService.reply_data].
    split; [done|]. split; [|done]. rewrite length_imap.
    unfold FinService.get_financial_metrics in Hm.
    destruct (negb _ || _) eqn:Hb.
    + injection Hm as <-. by left.
    + right. apply orb_false_iff in Hb as [_ Hnd]. unfold FinService.no_data in Hnd.
      destruct (FinService.data raw) as [[|it rest]|]; try done.
      assert (it :: rest ≠ []) as Hne by done.
      by destruct (response_lengths _ _ _ _ Hne Hm) as [? _].
Qed.

(** ** Calculating and saving the ratios *)

Lemma scan_row_entry st (row : item) (y a : string) :
  entry (scan_data (scan_row st row)) y a =
    if decide (bsns_year row = y ∧ account_nm row = a)
    then Some (amounts_of_row row)
    else entry (scan_data st) y a.
Proof.
  unfold scan_row, entry.
  destruct (scan_data st !! bsns_year row) as [d|] eqn:Hd; cbn [scan_data].
  - rewrite Hd. simpl.
    destruct (decide (bsns_year row = y)) as [<-|Hy].
    + rewrite lookup_insert_eq, Hd. simpl.
      destruct (decide (account_nm row = a)) as [<-|Ha].
      * rewrite lookup_insert_eq. by rewrite decide_True.
      * rewrite lookup_insert_ne by done. by rewrite decide_False by naive_solver.
    + rewrite lookup_insert_ne by done. by rewrite decide_False by naive_solver.
  - rewrite lookup_insert_eq. simpl.
    destruct (decide (bsns_year row = y)) as [<-|Hy].
    + rewrite lookup_insert_eq, Hd. simpl.
      destruct (decide (account_nm row = a)) as [<-|Ha].
      * rewrite lookup_insert_eq. by rewrite decide_True.
      * rewrite lookup_insert_ne by done. rewrite lookup_empty.
        by rewrite decide_False by naive_solver.
    + rewrite !lookup_insert_ne by done. by rewrite decide_False by naive_solver.
Qed.

Lemma scan_rows_entry (rows : list item) st (y a : string) :
  entry (scan_data (foldl scan_row st rows)) y a =
    match last (filter (λ row, bsns_year row = y ∧ account_nm row = a) rows) with
    | Some row => Some (amounts_of_row row)
    | None => entry (scan_data st) y a
    end.
Proof.
  revert st. induction rows as [|row rest IH]; intros st; cbn [foldl]; [done|].
  rewrite IH, filter_cons, scan_row_entry.
  destruct (decide (bsns_year row = y ∧ account_nm row = a)); [|done].
  rewrite last_cons. by destruct (last _).
Qed.

(** X12: the scan of the rows keeps, for a year and an account name, the amounts
    of the last row with that year and name: a later row overwrites an
    earlier one. *)
Theorem last_row_wins (rows : list item) (y a : string) :
  entry (scan_data (scan_rows rows)) y a =
    amounts_of_row <$>
      last (filter (λ row, bsns_year row = y ∧ account_nm row = a) rows).
Proof.
  unfold scan_rows. rewrite scan_rows_entry.
  destruct (last _); [done|]. unfold entry. cbn. by rewrite lookup_empty.
Qed.

Lemma calculate_ratios_eq (year_data : gmap string amounts) :
  _calculate_ratios year_data = Ok (ratios_by_rule year_data).
Proof.
  unfold _calculate_ratios. rewrite !ratio_pct_eq, !growth_rate_eq. reflexivity.
Qed.

Lemma save_years_eq (corp_code : string) fd (keys : list string) all calls :
  save_years corp_code fd keys all calls =
    (calls ++ mjoin ((λ y, _save_ratios_to_db corp_code y
                              (ratios_by_rule (default ∅ (fd !! y)))) <$> keys),
     Ok (foldl (λ m y, <[y := ratios_by_rule (default ∅ (fd !! y))]> m) all keys)).
Proof.
  revert all calls. induction keys as [|y rest IH]; intros all calls; cbn.
  - by rewrite app_nil_r.
  - rewrite calculate_ratios_eq, IH. by rewrite <- app_assoc.
Qed.

Lemma all_ratios_lookup (fd : gmap string (gmap string amounts)) (keys : list string) (all : gmap string Ratios.t) (y : string) :
  foldl (λ m y, <[y := ratios_by_rule (default ∅ (fd !! y))]> m) all keys !! y =
    if decide (y ∈ keys) then Some (ratios_by_rule (default ∅ (fd !! y))) else all !! y.
Proof.
  revert all. induction keys as [|k rest IH]; intros all; cbn [foldl].
  - by rewrite decide_False by apply not_elem_of_nil.
  - rewrite IH. destruct (decide (y ∈ rest)) as [Hin|Hnin].
    + by rewrite decide_True by by right.
    + destruct (decide (y = k)) as [->|Hne].
      * rewrite lookup_insert_eq. by rewrite decide_True by left.
      * rewrite lookup_insert_ne by done.
        by rewrite decide_False by (by intros [?|?]%elem_of_cons).
Qed.

Lemma scan_row_keys st (row : item) :
  (∀ y, y ∈ scan_keys st ↔ is_Some (scan_data st !! y)) →
  (∀ y, y ∈ scan_keys (scan_row st row) ↔ is_Some (scan_data (scan_row st row) !! y))
  ∧ (∀ y, y ∈ scan_keys (scan_row st row) ↔ y = bsns_year row ∨ y ∈ scan_keys st)
  ∧ scan_current_year (scan_row st row) =
      Some (default (bsns_year row) (scan_current_year st)).
Proof.
  intros Hinv. unfold scan_row.
  destruct (scan_data st !! bsns_year row) as [d|] eqn:Hd;
    cbn [scan_keys scan_data scan_current_year].
  - assert (bsns_year row ∈ scan_keys st) as Hin by (apply Hinv; by eexists).
    split; [|split].
    + intros y. rewrite Hinv. destruct (decide (y = bsns_year row)) as [->|Hne].
      * rewrite lookup_insert_eq, Hd. split; by eexists.
      * by rewrite lookup_insert_ne.
    + intros y. split; [by right|]. by intros [->|?].
    + by destruct (scan_current_year st).
  - split; [|split].
    + intros y. rewrite elem_of_app, list_elem_of_singleton, Hinv.
      destruct (decide (y = bsns_year row)) as [->|Hne].
      * rewrite lookup_insert_eq. split; [by eexists|by right].
      * rewrite !lookup_insert_ne by done. split; [by intros [?|?]|by left].
    + intros y. rewrite elem_of_app, list_elem_of_singleton. tauto.
    + by destruct (scan_current_year st).
Qed.

Lemma scan_rows_keys (rows : list item) st :
  (∀ y, y ∈ scan_keys st ↔ is_Some (scan_data st !! y)) →
  (∀ y, y ∈ scan_keys (foldl scan_row st rows)
        ↔ y ∈ scan_keys st ∨ ∃ row, row ∈ rows ∧ bsns_year row = y)
  ∧ scan_current_year (foldl scan_row st rows) =
      match scan_current_year st with
      | Some y => Some y
      | None => bsns_year <$> head rows
      end.
Proof.
  revert st. induction rows as [|row rest IH]; intros st Hinv; cbn [foldl].
  - split; [|by destruct (scan_current_year st)].
    intros y. split; [by left|]. intros [?|(row & Hrow & _)]; [done|].
    by apply elem_of_nil in Hrow.
  - destruct (scan_row_keys st row Hinv) as (Hinv' & Hkeys & Hcur).
    destruct (IH _ Hinv') as [IH1 IH2]. split.
    + intros y. rewrite IH1, Hkeys. split.
      * intros [[->|?]|(r & Hr & <-)].
        -- right. exists row. split; [left|done].
        -- by left.
        -- right. exists r. split; [by right|done].
      * intros [?|(r & [->|Hr]%elem_of_cons & <-)].
        -- left. by right.
        -- left. by left.
        -- right. by exists r.
    + rewrite IH2, Hcur. by destruct (scan_current_year st).
Qed.

Lemma scan_rows_keys_data (rows : list item) st :
  (∀ y, y ∈ scan_keys st ↔ is_Some (scan_data st !! y)) →
  ∀ y, y ∈ scan_keys (foldl scan_row st rows)
       ↔ is_Some (scan_data (foldl scan_row st rows) !! y).
Proof.
  revert st. induction rows as [|row rest IH]; intros st Hinv; cbn [foldl]; [done|].
  apply IH. by apply scan_row_keys.
Qed.

Lemma save_calls_Execute (corp_code bsns_year : string) (ratios : Ratios.t) (call : db_call) :
  call ∈ _save_ratios_to_db corp_code bsns_year ratios →
  ∃ name v, name ∈ metric_names ∧ ratios_get ratios name = Some v
     ∧ call = Execute corp_code bsns_year name v.
Proof.
  unfold _save_ratios_to_db. rewrite list_elem_of_omap.
  intros ([name o] & Hin & Hcall). apply list_elem_of_fmap in Hin as (name' & [= -> ->] & Hin).
  cbn [fst snd] in Hcall. destruct (ratios_get ratios name') as [v|] eqn:Hv; [|done].
  injection Hcall as <-. by exists name', v.
Qed.

Lemma save_calls_intro (corp_code bsns_year name : string) (ratios : Ratios.t) (v : float) :
  name ∈ metric_names → ratios_get ratios name = Some v →
  Execute corp_code bsns_year name v ∈ _save_ratios_to_db corp_code bsns_year ratios.
Proof.
  intros Hin Hv. unfold _save_ratios_to_db. rewrite list_elem_of_omap.
  exists (name, ratios_get ratios name). split.
  - apply list_elem_of_fmap. by exists name.
  - cbn [fst snd]. by rewrite Hv.
Qed.

Lemma save_calls_eq (corp_code bsns_year : string) (ratios : Ratios.t)
    (names : list string) :
  omap (λ metric : string * option float,
          match metric.2 with
          | Some value => Some (Execute corp_code bsns_year metric.1 value)
          | None => None
          end) ((λ name, (name, ratios_get ratios name)) <$> names)
  = (λ name, Execute corp_code bsns_year name (default 0%float (ratios_get ratios name)))
      <$> filter (λ name, is_Some (ratios_get ratios name)) names.
Proof.
  induction names as [|name rest IH]; [done|].
  rewrite fmap_cons, filter_cons. cbn [omap list_omap fst snd]. rewrite IH.
  destruct (ratios_get ratios name) as [v|] eqn:Hv.
  - rewrite decide_True by (by eexists). by rewrite fmap_cons, Hv.
  - by rewrite decide_False by (by intros [? ?]).
Qed.

Lemma metric_names_NoDup : NoDup metric_names.
Proof. apply (bool_decide_unpack _). vm_compute. exact I. Qed.

(** X13: [_save_ratios_to_db] executes, in the order of its list of ten metric
    names, one statement for each name whose ratio is not null, with the
    given company code and year and the value of the ratio, and nothing
    else: no statement twice, and a null ratio is never written. *)
Theorem save_writes_non_null (corp_code bsns_year : string) (ratios : Ratios.t) :
  let calls := _save_ratios_to_db corp_code bsns_year ratios in
  let written := filter (λ name, is_Some (ratios_get ratios name)) metric_names in
  calls = (λ name, Execute corp_code bsns_year name (default 0%float (ratios_get ratios name)))
            <$> written
  ∧ length calls = length written
  ∧ NoDup calls
  ∧ ∀ call, call ∈ calls
      ↔ ∃ name v, name ∈ metric_names ∧ ratios_get ratios name = Some v
           ∧ call = Execute corp_code bsns_year name v.
Proof.
  cbv zeta.
  assert (_save_ratios_to_db corp_code bsns_year ratios
          = (λ name, Execute corp_code bsns_year name (default 0%float (ratios_get ratios name)))
              <$> filter (λ name, is_Some (ratios_get ratios name)) metric_names) as Heq.
  { unfold _save_ratios_to_db. apply save_calls_eq. }
  split; [done|]. split; [by rewrite Heq, length_fmap|]. split.
  - rewrite Heq. apply NoDup_fmap_2.
    + by intros name1 name2 [= ->].
    + apply NoDup_filter, metric_names_NoDup.
  - intros call. split; [apply save_calls_Execute|].
    intros (name & v & Hin & Hv & ->). by apply save_calls_intro.
Qed.

Lemma scan_rows_init_keys :
  ∀ y, y ∈ scan_keys (RowScan [] ∅ None) ↔ is_Some (scan_data (RowScan [] ∅ None) !! y).
Proof.
  intros y. cbn. rewrite lookup_empty. split; [by intros ?%elem_of_nil|by intros [? ?]].
Qed.

Lemma calculate_and_save_eq (corp_code corp_name : string) (rows : list item) :
  let st := scan_rows rows in
  let ratios_of y := ratios_by_rule (default ∅ (scan_data st !! y)) in
  calculate_and_save_ratios corp_code corp_name rows =
    (mjoin ((λ y, _save_ratios_to_db corp_code y (ratios_of y)) <$> scan_keys st) ++ [Commit],
     Ok (match scan_current_year st with
         | Some current_year =>
             if decide (current_year = "") then None
             else if decide (current_year ∈ scan_keys st) then Some (ratios_of current_year)
             else None
         | None => None
         end)).
Proof.
  cbv zeta. unfold calculate_and_save_ratios. rewrite save_years_eq. cbn [app].
  f_equal. f_equal. destruct (scan_current_year (scan_rows rows)) as [cy|]; [|done].
  destruct (decide (cy = "")); [done|]. rewrite all_ratios_lookup.
  destruct (decide _); [done|]. by rewrite lookup_empty.
Qed.

(** X14: what [calculate_and_save_ratios] asks of a session whose calls succeed,
    whatever the rows: it never rolls back, it commits once, as its last
    call, and before that it executes exactly the statements for the non-null
    metrics of the years of the rows, each with the company code it was
    given. *)
Theorem saved_calls (corp_code corp_name : string) (rows : list item) :
  let calls := (calculate_and_save_ratios corp_code corp_name rows).1 in
  (∃ executed, calls = executed ++ [Commit] ∧ Commit ∉ executed)
  ∧ (Rollback ∉ calls)
  ∧ ∀ c y name v, Execute c y name v ∈ calls ↔
      c = corp_code ∧ name ∈ metric_names
      ∧ ∃ row ratios, row ∈ rows ∧ bsns_year row = y
          ∧ _calculate_ratios (default ∅ (scan_data (scan_rows rows) !! y)) = Ok ratios
          ∧ ratios_get ratios name = Some v.
Proof.
  cbv zeta. rewrite calculate_and_save_eq. cbn [fst].
  set (fd := scan_data (scan_rows rows)).
  set (executed := mjoin _).
  assert (∀ call, call ∈ executed ↔
    ∃ y, y ∈ scan_keys (scan_rows rows)
         ∧ call ∈ _save_ratios_to_db corp_code y (ratios_by_rule (default ∅ (fd !! y))))
    as Hexec.
  { intros call. unfold executed. rewrite list_elem_of_join. split.
    - intros (l & Hcall & (y & -> & Hy)%list_elem_of_fmap). by exists y.
    - intros (y & Hy & Hcall). eexists. split; [done|]. apply list_elem_of_fmap.
      by exists y. }
  assert (∀ y, y ∈ scan_keys (scan_rows rows) ↔ ∃ row, row ∈ rows ∧ bsns_year row = y)
    as Hkeys.
  { intros y. unfold scan_rows.
    rewrite (proj1 (scan_rows_keys rows _ scan_rows_init_keys) y). cbn.
    split; [|by right]. intros [?%elem_of_nil|?]; done. }
  split; [|split].
  - exists executed. split; [done|]. intros Hc. apply Hexec in Hc as (y & _ & Hc).
    by apply save_calls_Execute in Hc as (name & v & _ & _ & ?).
  - rewrite elem_of_app, list_elem_of_singleton. intros [Hc|?]; [|done].
    apply Hexec in Hc as (y & _ & Hc).
    by apply save_calls_Execute in Hc as (name & v & _ & _ & ?).
  - intros c y name v. rewrite elem_of_app, list_elem_of_singleton, Hexec. split.
    + intros [(y' & Hy' & Hc)|?]; [|done].
      apply save_calls_Execute in Hc as (name' & v' & Hname & Hv & [= -> -> -> ->]).
      split; [done|]. split; [done|]. apply Hkeys in Hy' as (row & Hrow & <-).
      exists row, (ratios_by_rule (default ∅ (fd !! bsns_year row))).
      by rewrite calculate_ratios_eq.
    + intros (-> & Hname & row & ratios & Hrow & <- & Hr & Hv). left.
      rewrite calculate_ratios_eq in Hr. injection Hr as <-.
      exists (bsns_year row). split; [apply Hkeys; by exists row|].
      by apply save_calls_intro.
Qed.

(** X15: what [calculate_and_save_ratios] returns when the calls on the session
    succeed: the calculation itself never raises; for no row, or when the
    year of the first row is the empty string, it returns the empty dict;
    otherwise it returns the ratios calculated for the year of the first
    row. *)
Theorem calculate_and_save_result (corp_code corp_name : string) (rows : list item) :
  match rows with
  | [] => (calculate_and_save_ratios corp_code corp_name rows).2 = Ok None
  | row :: _ =>
      if decide (bsns_year row = "")
      then (calculate_and_save_ratios corp_code corp_name rows).2 = Ok None
      else ∃ year_data ratios,
             scan_data (scan_rows rows) !! bsns_year row = Some year_data
             ∧ _calculate_ratios year_data = Ok ratios
             ∧ (calculate_and_save_ratios corp_code corp_name rows).2 = Ok (Some ratios)
  end.
Proof.
  destruct rows as [|row rest]; [done|].
  rewrite calculate_and_save_eq. cbn [snd].
  destruct (scan_rows_keys (row :: rest) _ scan_rows_init_keys) as [Hkeys Hcur].
  change (foldl scan_row (RowScan [] ∅ None) (row :: rest))
    with (scan_rows (row :: rest)) in Hkeys, Hcur.
  rewrite Hcur. cbn [scan_current_year head fmap option_fmap option_map].
  destruct (decide (bsns_year row = "")); [done|].
  assert (bsns_year row ∈ scan_keys (scan_rows (row :: rest))) as Hin.
  { apply Hkeys. right. exists row. split; [left|done]. }
  rewrite decide_True by done.
  assert (is_Some (scan_data (scan_rows (row :: rest)) !! bsns_year row)) as [d Hd].
  { by apply (scan_rows_keys_data (row :: rest) _ scan_rows_init_keys). }
  exists d, (ratios_by_rule d). split; [done|]. split; [apply calculate_ratios_eq|].
  by rewrite Hd.
Qed.

(** ** Exceptions of the assembler *)

(** X10: the assembler returns a response exactly when [int] accepts every
    anchor year, and the only exception that can leave it is the
    [ValueError] of [int(year)]: no division by zero, no [None * 100], no
    index out of range. *)
Theorem assembler_exceptions (corp_code company_name : string)
    (financial_data : list item) :
  ((∃ resp, get_financial_metrics corp_code company_name financial_data = Ok resp)
   ↔ Forall (λ y, is_Some (py_int y)) (anchor_years (all_years_of financial_data)))
  ∧ (∀ e, get_financial_metrics corp_code company_name financial_data = Raise e →
          e = ValueError).
Proof.
  split; [split; [|apply get_financial_metrics_returns]|].
  { intros [resp Hresp]. destruct (decide (financial_data = [])) as [->|Hne].
    - vm_compute. constructor.
    - destruct (get_financial_metrics_inv _ _ _ _ Hne Hresp) as (ayd & _ & _ & Hayd & _).
      by apply (collect_years_int _ _ _ _ Hayd). }
  intros e. unfold get_financial_metrics.
  destruct (scan_items financial_data) as [yd ys].
  destruct (decide (yd = ∅)); [done|].
  destruct (collect_years yd (anchor_years ys)) as [ayd|e1] eqn:Hc;
    cbn [mbind result_bind].
  - destruct (ratio_series_returns ayd (target_years_of ayd)) as [r ->].
    cbn [mbind result_bind].
    destruct (growth_series_returns ayd (target_years_of ayd)) as [[rgs ngs] ->].
    done.
  - intros [= <-]. by eapply collect_years_raises.
Qed.

(** ** The latest filed year *)

Lemma str_lt_trans (x y z : string) :
  String.compare x y = Lt → String.compare y z = Lt → String.compare x z = Lt.
Proof.
  intros H1 H2. apply OrderedTypeEx.String_as_OT.cmp_lt.
  apply (OrderedTypeEx.String_as_OT.lt_trans x y z); by apply OrderedTypeEx.String_as_OT.cmp_lt.
Qed.

Lemma str_ge_cases (x y : string) : str_ge x y ↔ String.compare y x = Lt ∨ y = x.
Proof.
  unfold str_ge, String.leb. split.
  - destruct (String.compare y x) eqn:H; [|by left|done].
    right. by apply String.compare_eq_iff.
  - intros [->| ->]; [done|].
    pose proof (proj2 (OrderedTypeEx.String_as_OT.cmp_eq x x) eq_refl) as H.
    unfold OrderedTypeEx.String_as_OT.cmp in H. by rewrite H.
Qed.

Lemma str_ge_trans : Transitive str_ge.
Proof.
  intros x y z Hxy Hyz. apply str_ge_cases in Hxy, Hyz. apply str_ge_cases.
  destruct Hxy as [Hxy| ->], Hyz as [Hyz| ->]; auto.
  left. by apply (str_lt_trans z y x).
Qed.

Lemma str_ge_total : Total str_ge.
Proof. intros x y. unfold str_ge. destruct (String.leb_total x y); auto. Qed.

(** Between 1000 and 9999 the decimal strings are ordered as the numbers. *)
Lemma py_str_succ_lt (n : Z) :
  (1000 ≤ n < 9999)%Z → String.compare (py_str n) (py_str (n + 1)) = Lt.
Proof.
  intros Hn.
  assert (forallb (λ i, match String.compare (py_str (1000 + Z.of_nat i))
                                (py_str (1000 + Z.of_nat i + 1)) with
                        | Lt => true | _ => false end) (seq 0 (Z.to_nat 8999)) = true) as Hall
    by (vm_compute; reflexivity).
  rewrite forallb_forall in Hall.
  specialize (Hall (Z.to_nat (n - 1000))).
  replace (1000 + Z.of_nat (Z.to_nat (n - 1000)))%Z with n in Hall by lia.
  destruct (String.compare (py_str n) (py_str (n + 1))); [|done|];
    (exfalso; refine (Bool.diff_false_true (Hall _)); apply in_seq; lia).
Qed.

Lemma py_str_lt (a b : Z) :
  (1000 ≤ a)%Z → (a < b)%Z → (b ≤ 9999)%Z →
  String.compare (py_str a) (py_str b) = Lt.
Proof.
  intros Ha Hab Hb.
  assert (∀ k : nat, (a + 1 + Z.of_nat k ≤ 9999)%Z →
    String.compare (py_str a) (py_str (a + 1 + Z.of_nat k)) = Lt) as H.
  { induction k as [|k IH]; intros Hk.
    - rewrite Z.add_0_r. apply py_str_succ_lt. lia.
    - apply (str_lt_trans _ (py_str (a + 1 + Z.of_nat k))); [apply IH; lia|].
      replace (a + 1 + Z.of_nat (S k))%Z with (a + 1 + Z.of_nat k + 1)%Z by lia.
      apply py_str_succ_lt. lia. }
  specialize (H (Z.to_nat (b - a - 1))).
  replace (a + 1 + Z.of_nat (Z.to_nat (b - a - 1)))%Z with b in H by lia.
  apply H. lia.
Qed.

Lemma py_str_ge (a b : Z) :
  (1000 ≤ a ≤ 9999)%Z → (1000 ≤ b ≤ 9999)%Z →
  str_ge (py_str a) (py_str b) → (b ≤ a)%Z.
Proof.
  intros Ha Hb Hge. destruct (Z.le_gt_cases b a) as [|Hlt]; [done|].
  apply str_ge_cases in Hge as [Hge|Heq].
  - pose proof (py_str_lt a b ltac:(lia) ltac:(lia) ltac:(lia)) as H.
    rewrite String.compare_antisym, Hge in H. done.
  - apply py_str_inj in Heq. lia.
Qed.

Lemma sorted_head (M : Z) (x : string) (T : list string) :
  (1000 ≤ M ≤ 9999)%Z →
  StronglySorted str_ge (x :: T) → Forall (year_upto M) (x :: T) →
  py_str M ∈ x :: T → x = py_str M.
Proof.
  intros HM Hs Hall Hin.
  apply StronglySorted_inv in Hs as [_ Hge].
  apply Forall_cons in Hall as [(m & -> & Hm) _].
  apply elem_of_cons in Hin as [Heq|Hin]; [done|].
  pose proof (proj1 (Forall_forall _ _) Hge _ Hin) as Hx.
  apply py_str_ge in Hx; [|lia..]. by replace m with M by lia.
Qed.

Lemma tail_upto (M : Z) (T : list string) :
  NoDup (py_str M :: T) → Forall (year_upto M) T → Forall (year_upto (M - 1)) T.
Proof.
  intros [Hnin _]%NoDup_cons Hall. apply Forall_forall. intros s Hs.
  destruct (proj1 (Forall_forall _ _) Hall s Hs) as (m & -> & Hm).
  exists m. split; [done|]. assert (m ≠ M) by (by intros ->). lia.
Qed.

Lemma top_three (N : Z) (T : list string) :
  (1002 ≤ N ≤ 9999)%Z →
  StronglySorted str_ge T → NoDup T → Forall (year_upto N) T →
  py_str N ∈ T → py_str (N - 1) ∈ T → py_str (N - 2) ∈ T →
  take 3 T = [py_str N; py_str (N - 1); py_str (N - 2)].
Proof.
  intros HN Hs Hnd Hall H0 H1 H2.
  destruct T as [|x1 T1]; [by apply elem_of_nil in H0|].
  assert (x1 = py_str N) as -> by (apply (sorted_head N x1 T1); [lia|done..]).
  assert (∀ a b, a ≠ b → py_str a ≠ py_str b) as Hne by (intros a b ? ?%py_str_inj; done).
  apply elem_of_cons in H1 as [?%py_str_inj|H1]; [lia|].
  apply elem_of_cons in H2 as [?%py_str_inj|H2]; [lia|].
  apply Forall_cons in Hall as [_ Hall]. pose proof (tail_upto _ _ Hnd Hall) as Hall1.
  apply StronglySorted_inv in Hs as [Hs1 _]. apply NoDup_cons in Hnd as [_ Hnd1].
  destruct T1 as [|x2 T2]; [by apply elem_of_nil in H1|].
  assert (x2 = py_str (N - 1)) as -> by (apply (sorted_head (N - 1) x2 T2); [lia|done..]).
  apply elem_of_cons in H2 as [?%py_str_inj|H2]; [lia|].
  apply Forall_cons in Hall1 as [_ Hall1]. pose proof (tail_upto _ _ Hnd1 Hall1) as Hall2.
  apply StronglySorted_inv in Hs1 as [Hs2 _].
  destruct T2 as [|x3 T3]; [by apply elem_of_nil in H2|].
  replace (N - 1 - 1)%Z with (N - 2)%Z in Hall2 by lia.
  assert (x3 = py_str (N - 2)) as -> by (apply (sorted_head (N - 2) x3 T3); [lia|done..]).
  done.
Qed.

Lemma sorted_reverse_strongly (xs : list string) :
  StronglySorted str_ge (sorted_reverse xs).
Proof.
  apply (@StronglySorted_merge_sort _ str_ge _ str_ge_trans str_ge_total).
Qed.

Lemma latest_year_keys (financial_data : list item) (N : Z) ayd :
  (1002 ≤ N ≤ 9999)%Z →
  (∃ it, it ∈ financial_data ∧ bsns_year it = py_str N) →
  (∀ it, it ∈ financial_data → ∃ n, bsns_year it = py_str n ∧ (1002 ≤ n ≤ N)%Z) →
  all_year_data_of financial_data = Ok ayd →
  target_years_of ayd = [py_str N; py_str (N - 1); py_str (N - 2)].
Proof.
  intros HN (it0 & Hit0 & Hy0) Hall Hayd.
  set (years := anchor_years (all_years_of financial_data)).
  assert (∀ y, y ∈ all_years_of financial_data → ∃ n, y = py_str n ∧ (1002 ≤ n ≤ N)%Z)
    as Hfiled.
  { intros y (it & Hit & <-)%all_years_spec. by apply Hall. }
  assert (∀ y, y ∈ years → y ∈ all_years_of financial_data) as Hanchor.
  { intros y Hy. apply anchor_years_filed, elem_of_dom in Hy.
    by rewrite years_data_dom in Hy. }
  (* the latest filed year is the first anchor year *)
  assert (py_str N ∈ years) as HNin.
  { unfold years, anchor_years.
    pose proof (sorted_reverse_strongly (elements (all_years_of financial_data))) as Hs.
    assert (py_str N ∈ sorted_reverse (elements (all_years_of financial_data))) as Hin.
    { unfold sorted_reverse. rewrite merge_sort_Permutation. apply elem_of_elements.
      apply all_years_spec. by exists it0. }
    assert (Forall (year_upto N) (sorted_reverse (elements (all_years_of financial_data))))
      as Hup.
    { apply Forall_forall. intros y Hy. unfold sorted_reverse in Hy.
      rewrite merge_sort_Permutation in Hy. apply elem_of_elements in Hy.
      destruct (Hfiled y Hy) as (n & -> & Hn). exists n. split; [done|lia]. }
    destruct (sorted_reverse (elements (all_years_of financial_data))) as [|x S];
      [by apply elem_of_nil in Hin|].
    assert (x = py_str N) as -> by (apply (sorted_head N x S); [lia|done..]).
    cbn. left. }
  (* the three latest years are keys *)
  pose proof (three_years_of_anchor _ _ _ (py_str N) N
    (anchor_years_all_filed financial_data) Hayd HNin (py_int_str N)) as Hsub.
  (* every key is a year up to N *)
  assert (∀ k, is_Some (ayd !! k) → year_upto N k) as Hkeys.
  { intros k Hk. apply (aggregated_years_aux _ _ k Hayd) in Hk
      as [Hk|(y & n & Hy & Hn & Hk)].
    - destruct (Hfiled k (Hanchor k Hk)) as (n & -> & Hn). exists n. split; [done|lia].
    - destruct (Hfiled y (Hanchor y Hy)) as (n' & -> & Hn').
      rewrite py_int_str in Hn. injection Hn as <-.
      destruct Hk as [->| ->]; eexists; (split; [done|lia]). }
  unfold target_years_of. apply top_three; [done|..].
  - apply sorted_reverse_strongly.
  - unfold sorted_reverse. rewrite merge_sort_Permutation. apply NoDup_elements.
  - apply Forall_forall. intros k Hk. unfold sorted_reverse in Hk.
    rewrite merge_sort_Permutation in Hk. apply elem_of_elements, elem_of_dom in Hk.
    by apply Hkeys.
  - unfold sorted_reverse. rewrite merge_sort_Permutation. apply elem_of_elements.
    set_solver.
  - unfold sorted_reverse. rewrite merge_sort_Permutation. apply elem_of_elements.
    set_solver.
  - unfold sorted_reverse. rewrite merge_sort_Permutation. apply elem_of_elements.
    set_solver.
Qed.

(** X20: when every fiscal year of the input is written as a decimal between 1002
    and 9999, the assembler returns a response for the latest filed year and
    the two years before it, in that order, and its growth figures are for
    the latest year and the year before it. *)
Theorem latest_three_years (corp_code company_name : string)
    (financial_data : list item) (N : Z) :
  (1002 ≤ N ≤ 9999)%Z →
  (∃ it, it ∈ financial_data ∧ bsns_year it = py_str N) →
  (∀ it, it ∈ financial_data → ∃ n, bsns_year it = py_str n ∧ (1002 ≤ n ≤ N)%Z) →
  ∃ resp, get_financial_metrics corp_code company_name financial_data = Ok resp
    ∧ FinancialMetrics.years (financialMetrics resp)
      = [py_str N; py_str (N - 1); py_str (N - 2)]
    ∧ DebtLiquidityData.years (debtLiquidityData resp)
      = [py_str N; py_str (N - 1); py_str (N - 2)]
    ∧ GrowthData.years (growthData resp) = [py_str N; py_str (N - 1)].
Proof.
  intros HN Hlatest Hall.
  assert (financial_data ≠ []) as Hne.
  { destruct Hlatest as (it & Hit & _). intros ->. by apply elem_of_nil in Hit. }
  destruct (get_financial_metrics_returns corp_code company_name financial_data)
    as [resp Hresp].
  { apply Forall_forall. intros y Hy.
    apply anchor_years_filed, elem_of_dom in Hy. rewrite years_data_dom in Hy.
    apply all_years_spec in Hy as (it & Hit & <-).
    destruct (Hall it Hit) as (n & -> & _). rewrite py_int_str. by eexists. }
  exists resp. split; [done|].
  destruct (get_financial_metrics_inv _ _ _ _ Hne Hresp)
    as (ayd & r & g & Hayd & _ & _ & ->).
  cbn. rewrite (latest_year_keys _ N _ HN Hlatest Hall Hayd). done.
Qed.


End Properties.

(** ** Where the claims fail as stated *)

(** C2, as stated, fails: of two revenue items for 2023 the kept entry is not
    the one of the later item. *)
Lemma later_item_does_not_overwrite :
  entry (years_data_of revenue_twice) "2023" "매출액" ≠
    amounts_of <$>
      last (filter (λ it, bsns_year it = "2023" ∧ account_nm it = "매출액") revenue_twice).
Proof.
  vm_compute. discriminate.
Qed.

(** C3, as stated, fails, whatever [int] reads besides the decimal notation:
    2023 is an anchor year with a revenue entry, the filed 2022 has no
    revenue entry, and yet the aggregated 2022 has no revenue entry implied
    from the prior column of 2023. *)
Lemma implied_account_not_added :
  ¬ ∃ python_int : PyInt,
      ∀ ayd year n a v,
        all_year_data_of revenue_missing_in_2022 = Ok ayd →
        year ∈ anchor_years (all_years_of revenue_missing_in_2022) →
        py_int year = Some n →
        entry (years_data_of revenue_missing_in_2022) year a = Some v →
        entry (years_data_of revenue_missing_in_2022) (py_str (n - 1)) a = None →
        entry ayd (py_str (n - 1)) a = Some (implied_entry frmtrm v).
Proof.
  intros [python_int H].
  set (ayd := returned (@all_year_data_of decimal_literals revenue_missing_in_2022)).
  assert (all_year_data_of revenue_missing_in_2022 = Ok ayd) as Hayd.
  { rewrite all_year_data_of_decimal by (vm_compute; reflexivity).
    vm_compute; reflexivity. }
  specialize (H ayd "2023" 2023%Z
    "매출액" (Amounts (Some 1000%float) (Some 800%float) (Some 600%float)) Hayd).
  assert (entry ayd (py_str (2023 - 1)) "매출액" = None) as Hnone
    by (vm_compute; reflexivity).
  rewrite Hnone in H. discriminate H.
  - vm_compute. left.
  - exact (py_int_str 2023).
  - vm_compute; reflexivity.
  - vm_compute; reflexivity.
Qed.

(** C8, as stated, fails, whatever [int] reads besides the decimal notation:
    with four filed years the filed 2020 revenue is 5, and the aggregated
    2020 carries the 7 restated by the 2022 filing. *)
Lemma fourth_filing_is_replaced :
  ¬ ∃ python_int : PyInt,
      ∀ ayd k a v,
        all_year_data_of four_filings = Ok ayd →
        entry (years_data_of four_filings) k a = Some v →
        entry ayd k a = Some v.
Proof.
  intros [python_int H].
  set (ayd := returned (@all_year_data_of decimal_literals four_filings)).
  assert (all_year_data_of four_filings = Ok ayd) as Hayd.
  { rewrite all_year_data_of_decimal by (vm_compute; reflexivity).
    vm_compute; reflexivity. }
  specialize (H ayd "2020" "매출액"
    (Amounts (Some 5%float) (Some 4%float) (Some 3%float)) Hayd).
  assert (entry ayd "2020" "매출액" = Some (Amounts (Some 7%float) None None)) as H7
    by (vm_compute; reflexivity).
  rewrite H7 in H. discriminate H. vm_compute; reflexivity.
Qed.

(** ** Instances

    In the instances [int] reads the plain decimal literals, unless another
    reading is named. *)

#[local] Existing Instance decimal_literals.

Lemma aggregated_entry_witness :
  let ayd := returned (all_year_data_of filing_2023) in
  all_year_data_of filing_2023 = Ok ayd
  ∧ entry ayd "2022" "매출액" =
      if decide ("2022" ∈ anchor_years (all_years_of filing_2023))
      then entry (years_data_of filing_2023) "2022" "매출액"
      else '(year, key) ← first_source (anchor_years (all_years_of filing_2023)) "2022";
           implied_entry key <$> entry (years_data_of filing_2023) year "매출액".
Proof.
  split; [vm_compute; reflexivity|].
  apply (aggregated_entry filing_2023). vm_compute; reflexivity.
Defined.

Lemma filed_anchor_takes_precedence_witness :
  let ayd := returned (all_year_data_of four_filings) in
  let v := Amounts (Some 9%float) (Some 8%float) (Some 7%float) in
  all_year_data_of four_filings = Ok ayd
  ∧ "2022" ∈ anchor_years (all_years_of four_filings)
  ∧ entry (years_data_of four_filings) "2022" "매출액" = Some v
  ∧ entry ayd "2022" "매출액" = Some v.
Proof.
  assert ("2022" ∈ anchor_years (all_years_of four_filings)) as Hin.
  { vm_compute. right. left. }
  split; [vm_compute; reflexivity|].
  split; [exact Hin|].
  split; [vm_compute; reflexivity|].
  apply (filed_anchor_takes_precedence four_filings);
    [vm_compute; reflexivity|exact Hin|vm_compute; reflexivity].
Defined.

Lemma three_target_years_witness :
  filing_2023 ≠ []
  ∧ (∀ ayd, all_year_data_of filing_2023 = Ok ayd →
       length (target_years_of ayd) = 3
       ∧ Forall (λ y, is_Some (ayd !! y)) (target_years_of ayd))
  ∧ ((∃ ayd, all_year_data_of filing_2023 = Ok ayd)
     ↔ Forall (λ y, is_Some (py_int y)) (anchor_years (all_years_of filing_2023)))
  ∧ (∀ e, all_year_data_of filing_2023 = Raise e → e = ValueError).
Proof.
  split; [discriminate|]. apply (three_target_years filing_2023). discriminate.
Defined.

Lemma series_lengths_witness :
  let resp := response_2023 "삼성전자" in
  let fm := financialMetrics resp in
  let gd := growthData resp in
  let dl := debtLiquidityData resp in
  let years := FinancialMetrics.years fm in
  get_financial_metrics "00126380" "삼성전자" filing_2023 = Ok resp
  ∧ DebtLiquidityData.years dl = years
  ∧ length (FinancialMetrics.operatingMargin fm) = length years
  ∧ length (FinancialMetrics.netMargin fm) = length years
  ∧ length (FinancialMetrics.roe fm) = length years
  ∧ length (FinancialMetrics.roa fm) = length years
  ∧ length (DebtLiquidityData.debtRatio dl) = length years
  ∧ length (DebtLiquidityData.currentRatio dl) = length years
  ∧ length (GrowthData.revenueGrowth gd) = length years - 1
  ∧ length (GrowthData.netIncomeGrowth gd) = length years - 1
  ∧ GrowthData.years gd = take (length years - 1) years.
Proof.
  split; [vm_compute; reflexivity|].
  apply (series_lengths "00126380" "삼성전자" filing_2023). vm_compute; reflexivity.
Defined.


Lemma nonempty_input_three_years_witness :
  let resp := response_2023 "삼성전자" in
  filing_2023 ≠ []
  ∧ get_financial_metrics "00126380" "삼성전자" filing_2023 = Ok resp
  ∧ length (FinancialMetrics.years (financialMetrics resp)) = 3
  ∧ length (FinancialMetrics.operatingMargin (financialMetrics resp)) = 3
  ∧ length (FinancialMetrics.netMargin (financialMetrics resp)) = 3
  ∧ length (FinancialMetrics.roe (financialMetrics resp)) = 3
  ∧ length (FinancialMetrics.roa (financialMetrics resp)) = 3
  ∧ length (DebtLiquidityData.debtRatio (debtLiquidityData resp)) = 3
  ∧ length (DebtLiquidityData.currentRatio (debtLiquidityData resp)) = 3
  ∧ length (GrowthData.years (growthData resp)) = 2
  ∧ length (GrowthData.revenueGrowth (growthData resp)) = 2
  ∧ length (GrowthData.netIncomeGrowth (growthData resp)) = 2.
Proof.
  split; [discriminate|]. split; [vm_compute; reflexivity|].
  apply (nonempty_input_three_years "00126380" "삼성전자" filing_2023);
    [discriminate|vm_compute; reflexivity].
Defined.

Lemma ratio_series_follow_years_witness :
  let resp := response_2023 "삼성전자" in
  get_financial_metrics "00126380" "삼성전자" filing_2023 = Ok resp
  ∧ ∃ ayd, all_year_data_of filing_2023 = Ok ayd ∧
    ∀ i year, FinancialMetrics.years (financialMetrics resp) !! i = Some year →
      DebtLiquidityData.years (debtLiquidityData resp) !! i = Some year ∧
      ∃ year_data, ayd !! year = Some year_data ∧
        let amt name := get_amount year_data name thstrm in
        FinancialMetrics.operatingMargin (financialMetrics resp) !! i
          = Some (percentage_or_null (amt "영업이익") (amt "매출액"))
        ∧ FinancialMetrics.netMargin (financialMetrics resp) !! i
          = Some (percentage_or_null (amt "당기순이익") (amt "매출액"))
        ∧ FinancialMetrics.roe (financialMetrics resp) !! i
          = Some (percentage_or_null (amt "당기순이익") (amt "자본총계"))
        ∧ FinancialMetrics.roa (financialMetrics resp) !! i
          = Some (percentage_or_null (amt "당기순이익") (amt "자산총계"))
        ∧ DebtLiquidityData.debtRatio (debtLiquidityData resp) !! i
          = Some (percentage_or_null (amt "부채총계") (amt "자본총계"))
        ∧ DebtLiquidityData.currentRatio (debtLiquidityData resp) !! i
          = Some (percentage_or_null (amt "유동자산") (amt "유동부채")).
Proof.
  split; [vm_compute; reflexivity|].
  apply (ratio_series_follow_years "00126380" "삼성전자" filing_2023).
  vm_compute; reflexivity.
Defined.

Lemma growth_series_follow_years_witness :
  let resp := response_2023 "삼성전자" in
  get_financial_metrics "00126380" "삼성전자" filing_2023 = Ok resp
  ∧ ∃ ayd, all_year_data_of filing_2023 = Ok ayd ∧
    ∀ i current_year prev_year,
      FinancialMetrics.years (financialMetrics resp) !! i = Some current_year →
      FinancialMetrics.years (financialMetrics resp) !! (i + 1) = Some prev_year →
      GrowthData.years (growthData resp) !! i = Some current_year ∧
      ∃ current_data prev_data,
        ayd !! current_year = Some current_data ∧ ayd !! prev_year = Some prev_data
        ∧ GrowthData.revenueGrowth (growthData resp) !! i
          = Some (growth_rate_reference (get_amount current_data "매출액" thstrm)
                    (get_amount prev_data "매출액" thstrm))
        ∧ GrowthData.netIncomeGrowth (growthData resp) !! i
          = Some (growth_rate_reference (get_amount current_data "당기순이익" thstrm)
                    (get_amount prev_data "당기순이익" thstrm)).
Proof.
  split; [vm_compute; reflexivity|].
  apply (growth_series_follow_years "00126380" "삼성전자" filing_2023).
  vm_compute; reflexivity.
Defined.

Lemma response_years_descending_witness :
  let resp := response_2023 "삼성전자" in
  get_financial_metrics "00126380" "삼성전자" filing_2023 = Ok resp
  ∧ NoDup (FinancialMetrics.years (financialMetrics resp))
  ∧ Sorted (λ x y, String.leb y x = true ∧ x ≠ y)
      (FinancialMetrics.years (financialMetrics resp)).
Proof.
  split; [vm_compute; reflexivity|].
  apply (response_years_descending "00126380" "삼성전자" filing_2023).
  vm_compute; reflexivity.
Defined.

Lemma unrecognised_account_ignored_witness :
  let year_data : gmap string amounts :=
    {[ "매출액" := Amounts (Some 1000%float) (Some 800%float) (Some 600%float) ]} in
  let v := Amounts (Some 5%float) None None in
  ("기타" ∉ recognised_accounts)
  ∧ inline_ratios (<["기타" := v]> year_data) = inline_ratios year_data
  ∧ _calculate_ratios (<["기타" := v]> year_data) = _calculate_ratios year_data
  ∧ extract_growth (<["기타" := v]> year_data) = extract_growth year_data.
Proof.
  assert ("기타" ∉ recognised_accounts) as Hout.
  { unfold recognised_accounts. rewrite !not_elem_of_cons. repeat split; try discriminate.
    apply not_elem_of_nil. }
  split; [exact Hout|]. by apply unrecognised_account_ignored.
Defined.

Lemma repeated_item_ignored_witness :
  let first := Item "2023" "매출액" (Some 1000%float) (Some 800%float) (Some 600%float) in
  let it := Item "2023" "매출액" (Some 5%float) None None in
  first ∈ filing_2023
  ∧ bsns_year first = bsns_year it
  ∧ account_nm first = account_nm it
  ∧ get_financial_metrics "00126380" "삼성전자" (filing_2023 ++ it :: [])
    = get_financial_metrics "00126380" "삼성전자" (filing_2023 ++ []).
Proof.
  assert (Item "2023" "매출액" (Some 1000%float) (Some 800%float) (Some 600%float)
          ∈ filing_2023) as Hin by left.
  split; [exact Hin|]. split; [reflexivity|]. split; [reflexivity|].
  by apply (repeated_item_ignored "00126380" "삼성전자" filing_2023 []
              _ _ Hin).
Defined.

Lemma aggregated_years_witness :
  let ayd := returned (all_year_data_of filing_2023) in
  all_year_data_of filing_2023 = Ok ayd
  ∧ (is_Some (ayd !! "2021") ↔
       "2021" ∈ anchor_years (all_years_of filing_2023)
       ∨ ∃ year n, year ∈ anchor_years (all_years_of filing_2023)
           ∧ py_int year = Some n ∧ ("2021" = py_str (n - 1) ∨ "2021" = py_str (n - 2))).
Proof.
  split; [vm_compute; reflexivity|].
  apply (aggregated_years filing_2023). vm_compute; reflexivity.
Defined.

Lemma aggregated_years_bounds_witness :
  let ayd := returned (all_year_data_of filing_2023) in
  filing_2023 ≠ []
  ∧ all_year_data_of filing_2023 = Ok ayd
  ∧ 3 ≤ size (dom ayd) ≤ 9.
Proof.
  split; [discriminate|]. split; [vm_compute; reflexivity|].
  apply (aggregated_years_bounds filing_2023); [discriminate|vm_compute; reflexivity].
Defined.

Lemma format_of_assembled_witness :
  let m := response_2023 "삼성전자" in
  let rows := FinService._format_ratios_data (Some m) in
  filing_2023 ≠ []
  ∧ get_financial_metrics "00126380" "삼성전자" filing_2023 = Ok m
  ∧ length rows = 3
  ∧ ∀ i row, rows !! i = Some row →
      (∃ year, FinancialMetrics.years (financialMetrics m) !! i = Some year
         ∧ row !! "사업연도" = Some (FinService.Year year))
      ∧ (∃ x, DebtLiquidityData.debtRatio (debtLiquidityData m) !! i = Some x
         ∧ row !! "부채비율" = Some (FinService.Number x))
      ∧ (∃ x, DebtLiquidityData.currentRatio (debtLiquidityData m) !! i = Some x
         ∧ row !! "유동비율" = Some (FinService.Number x))
      ∧ (∃ x, FinancialMetrics.operatingMargin (financialMetrics m) !! i = Some x
         ∧ row !! "영업이익률" = Some (FinService.Number x))
      ∧ (∃ x, FinancialMetrics.netMargin (financialMetrics m) !! i = Some x
         ∧ row !! "순이익률" = Some (FinService.Number x))
      ∧ (∃ x, FinancialMetrics.roe (financialMetrics m) !! i = Some x
         ∧ row !! "ROE" = Some (FinService.Number x))
      ∧ (∃ x, FinancialMetrics.roa (financialMetrics m) !! i = Some x
         ∧ row !! "ROA" = Some (FinService.Number x))
      ∧ (i < 2 →
         (∃ x, GrowthData.revenueGrowth (growthData m) !! i = Some x
            ∧ row !! "매출액증가율" = Some (FinService.Number x))
         ∧ (∃ x, GrowthData.netIncomeGrowth (growthData m) !! i = Some x
            ∧ row !! "순이익증가율" = Some (FinService.Number x)))
      ∧ (i = 2 → row !! "매출액증가율" = None ∧ row !! "순이익증가율" = None).
Proof.
  split; [discriminate|]. split; [vm_compute; reflexivity|].
  apply (format_of_assembled "00126380" "삼성전자" filing_2023);
    [discriminate|vm_compute; reflexivity].
Defined.

Lemma facade_metrics_years_witness :
  let failed := FinService.RawData "error" None in
  let raw := FinService.RawData "success" (Some filing_2023) in
  let resp := response_2023 "삼성전자" in
  FinService.get_financial_metrics "00126380" "삼성전자" failed
  = Ok (_empty_metrics_response "삼성전자")
  ∧ FinService.get_financial_metrics "00126380" "삼성전자" raw = Ok resp
  ∧ ((resp = _empty_metrics_response "삼성전자"
      ∧ (FinService.status raw ≠ "success" ∨ FinService.data raw = None
         ∨ FinService.data raw = Some []))
     ∨ (length (FinancialMetrics.years (financialMetrics resp)) = 3
        ∧ FinService.status raw = "success"
        ∧ ∃ it rest, FinService.data raw = Some (it :: rest)
            ∧ get_financial_metrics "00126380" "삼성전자" (it :: rest) = Ok resp)).
Proof.
  split.
  { apply (facade_metrics_years "00126380" "삼성전자" (FinService.RawData "error" None)).
    left. discriminate. }
  split; [vm_compute; reflexivity|].
  apply (facade_metrics_years "00126380" "삼성전자"
           (FinService.RawData "success" (Some filing_2023))).
  vm_compute; reflexivity.
Defined.

Lemma ratios_reply_rows_witness :
  let failed := FinService.RawData "error" None in
  let raw := FinService.RawData "success" (Some filing_2023) in
  let reply :=
    FinService.RatiosReply "success" "재무비율이 성공적으로 조회되었습니다."
      (FinService._format_ratios_data (Some (response_2023 "삼성전자"))) in
  FinService.get_financial_ratios "00126380" "삼성전자" failed raw
  = Ok (FinService.RatiosReply "success" "재무비율이 성공적으로 조회되었습니다." [])
  ∧ FinService.get_financial_ratios "00126380" "삼성전자" raw raw = Ok reply
  ∧ FinService.reply_status reply = "success"
  ∧ (length (FinService.reply_data reply) = 0 ∨ length (FinService.reply_data reply) = 3)
  ∧ (FinService.status raw = "error" → FinService.reply_data reply = []).
Proof.
  split.
  { apply (ratios_reply_rows "00126380" "삼성전자" (FinService.RawData "error" None)
             (FinService.RawData "success" (Some filing_2023))).
    left. reflexivity. }
  split; [vm_compute; reflexivity|].
  apply (ratios_reply_rows "00126380" "삼성전자"
           (FinService.RawData "success" (Some filing_2023))
           (FinService.RawData "success" (Some filing_2023))).
  vm_compute; reflexivity.
Defined.

Lemma latest_three_years_witness :
  (1002 ≤ 2023 ≤ 9999)%Z
  ∧ (∃ it, it ∈ filing_2023 ∧ bsns_year it = py_str 2023)
  ∧ (∀ it, it ∈ filing_2023 → ∃ n, bsns_year it = py_str n ∧ (1002 ≤ n ≤ 2023)%Z)
  ∧ ∃ resp, get_financial_metrics "00126380" "삼성전자" filing_2023 = Ok resp
      ∧ FinancialMetrics.years (financialMetrics resp)
        = [py_str 2023; py_str (2023 - 1); py_str (2023 - 2)]
      ∧ DebtLiquidityData.years (debtLiquidityData resp)
        = [py_str 2023; py_str (2023 - 1); py_str (2023 - 2)]
      ∧ GrowthData.years (growthData resp) = [py_str 2023; py_str (2023 - 1)].
Proof.
  assert (∃ it, it ∈ filing_2023 ∧ bsns_year it = py_str 2023) as H1.
  { eexists. split; [left|reflexivity]. }
  assert (∀ it, it ∈ filing_2023 → ∃ n, bsns_year it = py_str n ∧ (1002 ≤ n ≤ 2023)%Z)
    as H2.
  { intros it Hit. exists 2023%Z. split; [|lia].
    unfold filing_2023 in Hit. rewrite !elem_of_cons in Hit.
    destruct Hit as [->|[->|Hit]]; [reflexivity|reflexivity|by apply elem_of_nil in Hit]. }
  split; [lia|]. split; [exact H1|]. split; [exact H2|].
  apply (latest_three_years "00126380" "삼성전자" filing_2023 2023); [lia|exact H1|exact H2].
Defined.

